(** * health_checker.py: the proxy health checker, embedded and verified

    The program registers a user with the proxy, obtains a JWT token and sends
    one test request to the selected provider.  Its effects (the HTTP client,
    standard output, the mutable [jwt_token] field) are modelled by a state
    and exception monad over an explicit [World]; the network is an oracle
    that answers each request with a response or with a raised exception.

    Writing to standard output, building the client and closing it are taken
    to succeed; the exceptions of a run come from the requests of the client,
    from decoding a body and from reading the configuration.  What [main]
    does when [httpx.Client(...)] itself raises, before its [try] statement,
    is therefore not described here, and no statement below is about it.
    Strings are sequences of bytes. *)

From stdpp Require Import gmap strings list.
From Stdlib Require Import ZArith String Ascii PrimFloat.

Set Warnings "-register-all".

Open Scope string_scope.
Open Scope list_scope.
Open Scope Z_scope.

(** ** Python values *)

(** The values the program handles: [None], the strings of the configuration
    and of the command line, the numbers of a result, and the documents that
    [Response.json()] decodes.  A dict is kept as its items in order; the
    decoder has already resolved repeated keys. *)
Inductive pyval : Type :=
| PNone
| PBool (b : bool)
| PInt (z : Z)
| PFloat (f : float)
| PStr (s : string)
| PList (l : list pyval)
| PDict (d : list (string * pyval)).

(** Python's truth value of an object, as tested by [if x], [not x], [x or y]. *)
Definition truthy (v : pyval) : bool :=
  match v with
  | PNone => false
  | PBool b => b
  | PInt z => negb (z =? 0)
  | PFloat f => negb (PrimFloat.eqb f 0%float)
  | PStr s => negb (String.eqb s EmptyString)
  | PList l => match l with [] => false | _ => true end
  | PDict d => match d with [] => false | _ => true end
  end.

(** [x or y] *)
Definition py_or (x y : pyval) : pyval := if truthy x then x else y.

(** An [Optional[str]] as a Python value. *)
Definition of_opt (o : option string) : pyval :=
  match o with Some s => PStr s | None => PNone end.

(** [d.get(k)] on the items of a dict. *)
Fixpoint dict_get (d : list (string * pyval)) (k : string) : pyval :=
  match d with
  | [] => PNone
  | (k', v) :: d' => if String.eqb k' k then v else dict_get d' k
  end.

Definition type_name (v : pyval) : string :=
  match v with
  | PNone => "NoneType"
  | PBool _ => "bool"
  | PInt _ => "int"
  | PFloat _ => "float"
  | PStr _ => "str"
  | PList _ => "list"
  | PDict _ => "dict"
  end.

(** ** Exceptions and results *)

(** What can be raised during a run: an instance of a subclass of
    [Exception], with its class name and [str(e)], or [KeyboardInterrupt],
    which [except Exception] does not catch. *)
Inductive pyexc : Type :=
| PyException (cls : string) (msg : string)
| KeyboardInterrupt.

Inductive result (A : Type) : Type :=
| Ok (a : A)
| Raise (e : pyexc).
Arguments Ok {A} a.
Arguments Raise {A} e.

(** ** Formatted text *)

(** The pieces of an f-string: literal text and the interpolated values,
    which are kept as values rather than rendered. *)
Inductive frag : Type :=
| Lit (s : string)        (* literal characters, or an interpolated str *)
| Fmt (v : pyval)         (* {v}: str(v) *)
| Fmt2f (v : pyval)       (* {v:.2f} *)
| Dumps (v : pyval).      (* json.dumps(v, indent=2) *)

Abbreviation text := (list frag).

(** ** Terminal colours (class Colors) *)

Module Colors.
Definition ESC : string := String "027"%char EmptyString.
Definition GREEN : string := ESC +:+ "[92m".
Definition RED : string := ESC +:+ "[91m".
Definition YELLOW : string := ESC +:+ "[93m".
Definition BLUE : string := ESC +:+ "[94m".
Definition CYAN : string := ESC +:+ "[96m".
Definition WHITE : string := ESC +:+ "[97m".
Definition BOLD : string := ESC +:+ "[1m".
Definition END : string := ESC +:+ "[0m".
End Colors.

Definition NL : string := String "010"%char EmptyString.

(** The double quote. *)
Definition DQ : string := String "034"%char EmptyString.

(** ** String helpers of the standard library that the printers use *)

(** [c * n] for a one-character pattern, as in ['='*60]. *)
Fixpoint repeat_str (s : string) (n : nat) : string :=
  match n with
  | O => EmptyString
  | S n' => s +:+ repeat_str s n'
  end.

(** [s.ljust(width)] *)
Definition ljust (s : string) (width : nat) : string :=
  s +:+ repeat_str " " (width - String.length s)%nat.

(** [s.center(width)]: CPython puts [marg/2 + (marg & width & 1)] blanks on
    the left and the rest on the right. *)
Definition center (s : string) (width : nat) : string :=
  let len := String.length s in
  if (width <=? len)%nat then s
  else
    let marg := (width - len)%nat in
    let left := (marg / 2 + (if Nat.odd marg && Nat.odd width then 1 else 0))%nat in
    repeat_str " " left +:+ s +:+ repeat_str " " (marg - left)%nat.

Definition upper_char (c : ascii) : ascii :=
  let n := nat_of_ascii c in
  if ((97 <=? n) && (n <=? 122))%nat then ascii_of_nat (n - 32) else c.

Definition lower_char (c : ascii) : ascii :=
  let n := nat_of_ascii c in
  if ((65 <=? n) && (n <=? 90))%nat then ascii_of_nat (n + 32) else c.

Fixpoint map_str (f : ascii -> ascii) (s : string) : string :=
  match s with
  | EmptyString => EmptyString
  | String c s' => String (f c) (map_str f s')
  end.

(** [s.capitalize()] on ASCII text. *)
Definition capitalize (s : string) : string :=
  match s with
  | EmptyString => EmptyString
  | String c s' => String (upper_char c) (map_str lower_char s')
  end.

(** ** [int(s)] on a string *)

Definition is_space (c : ascii) : bool :=
  let n := nat_of_ascii c in
  (((9 <=? n) && (n <=? 13)) || ((28 <=? n) && (n <=? 32)))%nat.

Definition digit_of (c : ascii) : option Z :=
  let n := nat_of_ascii c in
  if ((48 <=? n) && (n <=? 57))%nat then Some (Z.of_nat (n - 48)) else None.

Fixpoint lstrip (s : string) : string :=
  match s with
  | String c s' => if is_space c then lstrip s' else s
  | EmptyString => EmptyString
  end.

Fixpoint all_space (s : string) : bool :=
  match s with
  | EmptyString => true
  | String c s' => is_space c && all_space s'
  end.

(** Digits with single underscores between them, then optional trailing
    blanks.  [acc] is the value read so far; [after_digit] tells whether
    the previous character was a digit. *)
Fixpoint int_digits (s : string) (acc : Z) (after_digit : bool) : option Z :=
  match s with
  | EmptyString => if after_digit then Some acc else None
  | String c s' =>
      match digit_of c with
      | Some d => int_digits s' (10 * acc + d) true
      | None =>
          if after_digit then
            if Ascii.eqb c "_" then
              match s' with
              | String c' _ =>
                  match digit_of c' with
                  | Some _ => int_digits s' acc false
                  | None => None
                  end
              | EmptyString => None
              end
            else if all_space s then Some acc else None
          else None
      end
  end.

(** [int(s)] on ASCII text: blanks are stripped, a sign may precede the
    digits; [None] stands for the [ValueError] that Python raises.  Outside
    ASCII (the decimal digits and blanks of other scripts) and beyond the
    limit that CPython 3.11 puts on the number of digits, [int] and this
    function differ; nothing below depends on what happens there. *)
Definition py_int (s : string) : option Z :=
  match lstrip s with
  | String "-" s' => option_map Z.opp (int_digits s' 0 false)
  | String "+" s' => int_digits s' 0 false
  | s' => int_digits s' 0 false
  end.

(** ** HTTP *)

Module Request.
Record t : Type := mk {
  url : string;
  headers : list (string * text);
  json : pyval
}.
End Request.

(** An [httpx.Response]: [json] is what [response.json()] does, namely it
    returns the decoded body or raises; [elapsed] is
    [response.elapsed.total_seconds()]. *)
Module Response.
Record t : Type := mk {
  status_code : Z;
  text : string;
  json : result pyval;
  elapsed : float
}.
End Response.

(** What a [client.post] call does. *)
Inductive outcome : Type :=
| Responds (r : Response.t)
| Fails (e : pyexc).

(** The other side of the wire: the answer to the request that is sent after
    [n] earlier ones. *)
Abbreviation network := (nat -> Request.t -> outcome).

(** ** The world and the monad of effects *)

(** The dict that a probe returns. *)
Module ProbeResult.
Record t : Type := mk {
  provider : string;
  status_code : Z;
  success : bool;
  response_time : pyval;
  error : pyval;
  response_data : pyval;
  full_response : option pyval      (* the key is present only when verbose *)
}.

Definition set_error (e : pyval) (r : t) : t :=
  mk (provider r) (status_code r) (success r) (response_time r) e
     (response_data r) (full_response r).
Definition set_response_data (d : pyval) (r : t) : t :=
  mk (provider r) (status_code r) (success r) (response_time r) (error r)
     d (full_response r).
Definition set_full_response (d : pyval) (r : t) : t :=
  mk (provider r) (status_code r) (success r) (response_time r) (error r)
     (response_data r) (Some d).
End ProbeResult.

(** A probe entering and a probe handing back its result are recorded in
    the [trace] of the world: the program keeps no such log, it is there to
    state which probes ran. *)
Inductive event : Type :=
| Invoked (provider : string)
| Produced (provider : string) (r : ProbeResult.t).

Record World : Type := mkWorld {
  jwt_token : pyval;            (* self.jwt_token *)
  sent : list Request.t;        (* the requests given to the client, oldest first *)
  stdout : list text;           (* one entry per print call, oldest first *)
  closed : bool;                (* self.client.close() has run *)
  trace : list event
}.

Definition M (A : Type) : Type := World -> result A * World.

#[export] Instance M_ret : MRet M := fun A a w => (Ok a, w).

#[export] Instance M_bind : MBind M := fun A B f m w =>
  match m w with
  | (Ok a, w') => f a w'
  | (Raise e, w') => (Raise e, w')
  end.

Definition raise {A : Type} (e : pyexc) : M A := fun w => (Raise e, w).

(** A call that returns or raises without touching the world. *)
Definition lift {A : Type} (r : result A) : M A := fun w => (r, w).

(** [try: body except ...: handler]; [handler e = None] when no clause
    matches [e]. *)
Definition try_except {A : Type} (body : M A) (handler : pyexc -> option (M A)) : M A :=
  fun w =>
    match body w with
    | (Ok a, w') => (Ok a, w')
    | (Raise e, w') =>
        match handler e with
        | Some h => h w'
        | None => (Raise e, w')
        end
    end.

(** [try: body finally: fin] *)
Definition try_finally {A : Type} (body : M A) (fin : M unit) : M A :=
  fun w =>
    let (r, w') := body w in
    match fin w' with
    | (Ok _, w'') => (r, w'')
    | (Raise e, w'') => (Raise e, w'')
    end.

(** The clause [except Exception as e]. *)
Definition except_Exception {A : Type} (h : string -> M A) (e : pyexc) : option (M A) :=
  match e with
  | PyException _ msg => Some (h msg)
  | KeyboardInterrupt => None
  end.

Definition get_jwt_token : M pyval := fun w => (Ok (jwt_token w), w).

Definition set_jwt_token (v : pyval) : M unit := fun w =>
  (Ok tt, mkWorld v (sent w) (stdout w) (closed w) (trace w)).

Definition print (line : text) : M unit := fun w =>
  (Ok tt, mkWorld (jwt_token w) (sent w) (stdout w ++ [line]) (closed w) (trace w)).

Definition log (ev : event) : M unit := fun w =>
  (Ok tt, mkWorld (jwt_token w) (sent w) (stdout w) (closed w) (trace w ++ [ev])).

(** ** Printing *)

Definition print_colored (t : text) (color : string) : M unit :=
  print (Lit color :: t ++ [Lit Colors.END]).

Definition print_header (t : string) : M unit :=
  _ ← print_colored [Lit NL; Lit Colors.BOLD; Lit (repeat_str "=" 60)] Colors.CYAN;
  _ ← print_colored [Lit (center t 60)] (Colors.CYAN +:+ Colors.BOLD);
  print_colored [Lit (repeat_str "=" 60); Lit Colors.END] Colors.CYAN.

Definition print_status (provider status : string) (details : text) : M unit :=
  let color := if String.eqb status "PASS" then Colors.GREEN else Colors.RED in
  let status_text := ljust ("[" +:+ status +:+ "]") 8 in
  let provider_text := ljust provider 12 in
  print_colored ([Lit provider_text; Lit " "; Lit status_text; Lit " "] ++ details) color.

(** ** Configuration (load_config) *)

Module Config.
Record t : Type := mk {
  OPENAI_API_KEY : option string;
  OPENAI_ORG_ID : option string;
  ANTHROPIC_API_KEY : option string;
  PROXY_BASE_URL : string;
  PROXY_TIMEOUT : Z;
  DEFAULT_USERNAME : option string;
  DEFAULT_PIN : option string
}.
End Config.

(** [int(os.getenv('PROXY_TIMEOUT', '30'))] *)
Definition int_of_env (s : string) : result Z :=
  match py_int s with
  | Some z => Ok z
  | None =>
      Raise (PyException "ValueError"
               ("invalid literal for int() with base 10: '" +:+ s +:+ "'"))
  end.

(** [env] is [os.environ] once [load_dotenv] has merged the .env file.  The
    only statement of load_config that can raise is the conversion of
    PROXY_TIMEOUT. *)
Definition load_config (env : gmap string string) : result Config.t :=
  match int_of_env (default "30" (env !! "PROXY_TIMEOUT")) with
  | Ok timeout =>
      Ok (Config.mk
            (env !! "OPENAI_API_KEY")
            (env !! "OPENAI_ORG_ID")
            (env !! "ANTHROPIC_API_KEY")
            (default "http://aitools.cs.vt.edu:7860" (env !! "PROXY_BASE_URL"))
            timeout
            (env !! "DEFAULT_USERNAME")
            (env !! "DEFAULT_PIN"))
  | Raise e => Raise e
  end.

(** ** class HealthChecker *)

Definition health_check_message : pyval :=
  PList [PDict [("role", PStr "user");
                ("content", PStr "Say 'Health check successful' and nothing else.")]].

Definition chat_payload (model : string) : pyval :=
  PDict [("model", PStr model);
         ("messages", health_check_message);
         ("max_tokens", PInt 10);
         ("stream", PBool false)].

(** The test [not config.get(K) or config[K] == placeholder]. *)
Definition not_configured (key : option string) (placeholder : string) : bool :=
  negb (truthy (of_opt key)) || bool_decide (key = Some placeholder).

Section HealthChecker.

Variable net : network.

(** [self.client.post(url, headers=headers, json=json)] *)
Definition client_post (url : string) (headers : list (string * text)) (json : pyval) :
  M Response.t :=
  fun w =>
    let req := Request.mk url headers json in
    let w' := mkWorld (jwt_token w) (sent w ++ [req]) (stdout w) (closed w) (trace w) in
    match net (List.length (sent w)) req with
    | Responds r => (Ok r, w')
    | Fails e => (Raise e, w')
    end.

(** [data.get('token')]: only a dict has the method. *)
Definition get_token (data : pyval) : M pyval :=
  match data with
  | PDict d => mret (dict_get d "token")
  | _ =>
      raise (PyException "AttributeError"
               ("'" +:+ type_name data +:+ "' object has no attribute 'get'"))
  end.

Definition register_user (config : Config.t) (username pin : pyval) : M bool :=
  try_except
    (response ← client_post (Config.PROXY_BASE_URL config +:+ "/auth/register") []
                  (PDict [("username", username); ("pin", pin)]);
     if Response.status_code response =? 200 then
       data ← lift (Response.json response);
       token ← get_token data;
       _ ← set_jwt_token token;
       jwt ← get_jwt_token;
       if truthy jwt then
         _ ← print_colored [Lit "✓ Registration successful for user: "; Fmt username]
               Colors.GREEN;
         mret true
       else
         _ ← print_colored [Lit "✗ Registration failed: No token received"] Colors.RED;
         mret false
     else
       _ ← print_colored [Lit "✗ Registration failed: ";
                          Fmt (PInt (Response.status_code response));
                          Lit " - "; Lit (Response.text response)] Colors.RED;
       mret false)
    (except_Exception (fun e =>
       _ ← print_colored [Lit "✗ Registration error: "; Lit e] Colors.RED;
       mret false)).

Definition test_opensource_provider (config : Config.t) (verbose : bool) : M ProbeResult.t :=
  try_except
    (jwt ← get_jwt_token;
     let headers := [("Authorization", [Lit "Bearer "; Fmt jwt]);
                     ("Content-Type", [Lit "application/json"])] in
     let payload := chat_payload "openai--gpt-oss-120b" in
     response ← client_post
                  (Config.PROXY_BASE_URL config +:+ "/opensource/v1/chat/completions")
                  headers payload;
     let result :=
       ProbeResult.mk "opensource"
         (Response.status_code response)
         (Response.status_code response =? 200)
         (PFloat (Response.elapsed response))
         PNone PNone None in
     if Response.status_code response =? 200 then
       data ← lift (Response.json response);
       let result := ProbeResult.set_response_data data result in
       let result :=
         if verbose then ProbeResult.set_full_response data result else result in
       mret result
     else
       mret (ProbeResult.set_error (PStr (Response.text response)) result))
    (except_Exception (fun e =>
       mret (ProbeResult.mk "opensource" 0 false (PInt 0) (PStr e) PNone None))).

Definition test_openai_provider (config : Config.t) (verbose : bool) : M ProbeResult.t :=
  if not_configured (Config.OPENAI_API_KEY config) "your_openai_api_key_here" then
    mret (ProbeResult.mk "openai" 0 false (PInt 0)
            (PStr "OpenAI API key not configured") PNone None)
  else
    try_except
      (jwt ← get_jwt_token;
       let headers := [("Authorization", [Lit "Bearer "; Fmt jwt]);
                       ("Content-Type", [Lit "application/json"]);
                       ("X-User-OpenAI-Key", [Fmt (of_opt (Config.OPENAI_API_KEY config))])] in
       let headers :=
         if truthy (of_opt (Config.OPENAI_ORG_ID config))
            && negb (bool_decide (Config.OPENAI_ORG_ID config = Some "your_openai_org_id_here"))
         then headers ++ [("X-User-OpenAI-Org", [Fmt (of_opt (Config.OPENAI_ORG_ID config))])]
         else headers in
       let payload := chat_payload "gpt-3.5-turbo" in
       response ← client_post
                    (Config.PROXY_BASE_URL config +:+ "/openai/v1/chat/completions")
                    headers payload;
       let result :=
         ProbeResult.mk "openai"
           (Response.status_code response)
           (Response.status_code response =? 200)
           (PFloat (Response.elapsed response))
           PNone PNone None in
       if Response.status_code response =? 200 then
         data ← lift (Response.json response);
         let result := ProbeResult.set_response_data data result in
         let result :=
           if verbose then ProbeResult.set_full_response data result else result in
         mret result
       else
         mret (ProbeResult.set_error (PStr (Response.text response)) result))
      (except_Exception (fun e =>
         mret (ProbeResult.mk "openai" 0 false (PInt 0) (PStr e) PNone None))).

Definition test_anthropic_provider (config : Config.t) (verbose : bool) : M ProbeResult.t :=
  if not_configured (Config.ANTHROPIC_API_KEY config) "your_anthropic_api_key_here" then
    mret (ProbeResult.mk "anthropic" 0 false (PInt 0)
            (PStr "Anthropic API key not configured") PNone None)
  else
    try_except
      (jwt ← get_jwt_token;
       let headers := [("Authorization", [Lit "Bearer "; Fmt jwt]);
                       ("Content-Type", [Lit "application/json"]);
                       ("X-User-Anthropic-Key",
                        [Fmt (of_opt (Config.ANTHROPIC_API_KEY config))])] in
       let payload := chat_payload "claude-3-haiku-20240307" in
       response ← client_post
                    (Config.PROXY_BASE_URL config +:+ "/anthropic/v1/messages")
                    headers payload;
       let result :=
         ProbeResult.mk "anthropic"
           (Response.status_code response)
           (Response.status_code response =? 200)
           (PFloat (Response.elapsed response))
           PNone PNone None in
       if Response.status_code response =? 200 then
         data ← lift (Response.json response);
         let result := ProbeResult.set_response_data data result in
         let result :=
           if verbose then ProbeResult.set_full_response data result else result in
         mret result
       else
         mret (ProbeResult.set_error (PStr (Response.text response)) result))
      (except_Exception (fun e =>
         mret (ProbeResult.mk "anthropic" 0 false (PInt 0) (PStr e) PNone None))).

(** [results[provider] = result] on the items of a dict: an existing key
    keeps its place. *)
Fixpoint dict_set {A : Type} (k : string) (v : A) (d : list (string * A)) :
  list (string * A) :=
  match d with
  | [] => [(k, v)]
  | (k', v') :: d' =>
      if String.eqb k' k then (k, v) :: d' else (k', v') :: dict_set k v d'
  end.

Fixpoint dict_lookup {A : Type} (k : string) (d : list (string * A)) : option A :=
  match d with
  | [] => None
  | (k', v) :: d' => if String.eqb k' k then Some v else dict_lookup k d'
  end.

Definition provider_tests (config : Config.t) : list (string * (bool -> M ProbeResult.t)) :=
  [("opensource", test_opensource_provider config);
   ("openai", test_openai_provider config);
   ("anthropic", test_anthropic_provider config)].

(** The call [provider_tests[provider](verbose)], with its two entries in
    the trace. *)
Definition call_probe (provider : string) (probe : M ProbeResult.t) : M ProbeResult.t :=
  _ ← log (Invoked provider);
  result ← probe;
  _ ← log (Produced provider result);
  mret result.

(** The loop of run_health_checks over the providers still to visit. *)
Fixpoint run_health_checks_loop (config : Config.t) (providers : list string)
  (verbose : bool) (results : list (string * ProbeResult.t)) :
  M (list (string * ProbeResult.t)) :=
  match providers with
  | [] => mret results
  | provider :: rest =>
      match dict_lookup provider (provider_tests config) with
      | Some test =>
          _ ← print_colored [Lit NL; Lit "Testing "; Lit provider; Lit " provider..."]
                Colors.BLUE;
          result ← call_probe provider (test verbose);
          let results := dict_set provider result results in
          let status := if ProbeResult.success result then "PASS" else "FAIL" in
          let details :=
            if ProbeResult.success result
            then [Lit "("; Fmt2f (ProbeResult.response_time result); Lit "s)"]
            else [Lit "Error: "; Fmt (ProbeResult.error result)] in
          _ ← print_status (capitalize provider) status details;
          _ ← (if verbose
                  && truthy (default PNone (ProbeResult.full_response result))
               then
                 _ ← print_colored [Lit NL; Lit "Detailed response for "; Lit provider;
                                    Lit ":"] Colors.YELLOW;
                 print [Dumps (default PNone (ProbeResult.full_response result))]
               else mret tt);
          run_health_checks_loop config rest verbose results
      | None => run_health_checks_loop config rest verbose results
      end
  end.

Definition run_health_checks (config : Config.t) (providers : list string)
  (verbose : bool) : M (list (string * ProbeResult.t)) :=
  run_health_checks_loop config providers verbose [].

(** [self.client.close()] *)
Definition close : M unit := fun w =>
  (Ok tt, mkWorld (jwt_token w) (sent w) (stdout w) true (trace w)).

(** [HealthChecker(config)]: the token starts as [None].  The construction
    of [httpx.Client(timeout=...)] is taken to return; a constructor that
    raises is outside the model. *)
Definition HealthChecker_init (config : Config.t) : M unit := set_jwt_token PNone.

End HealthChecker.

(** ** Command line (argparse) *)

(** The choices of [--provider]. *)
Inductive choice : Type := openai | anthropic | opensource.

Definition choice_name (c : choice) : string :=
  match c with
  | openai => "openai"
  | anthropic => "anthropic"
  | opensource => "opensource"
  end.

Module Args.
Record t : Type := mk {
  verbose : bool;
  show_token : bool;
  token_only : bool;
  provider : option choice;
  username : option string;
  pin : option string
}.
End Args.

(** [', '.join(providers)] *)
Fixpoint join (sep : string) (l : list string) : string :=
  match l with
  | [] => EmptyString
  | [x] => x
  | x :: l' => x +:+ sep +:+ join sep l'
  end.

(** [sum(1 for r in results.values() if r["success"])] *)
Definition count_passed (results : list (string * ProbeResult.t)) : Z :=
  Z.of_nat (List.length (List.filter (fun kv => ProbeResult.success kv.2) results)).

(** ** main *)

Section Main.

Variable net : network.

(** The body of the [try] statement of [main]. *)
Definition main_try (args : Args.t) (config : Config.t) (username pin : pyval)
  (providers : list string) : M Z :=
  _ ← print_header "AI Tools LLM Proxy Health Checker";
  _ ← print_colored [Lit "Proxy URL: "; Lit (Config.PROXY_BASE_URL config)] Colors.CYAN;
  _ ← print_colored [Lit "Username: "; Fmt username] Colors.CYAN;
  _ ← print_colored [Lit "Providers: "; Lit (join ", " providers)] Colors.CYAN;
  _ ← print_colored [Lit NL; Lit "Registering user '"; Fmt username; Lit "'..."] Colors.BLUE;
  registered ← register_user net config username pin;
  if negb registered then
    _ ← print_colored [Lit "Registration failed. Cannot proceed with health checks."]
          Colors.RED;
    mret 1
  else
    _ ← (if Args.show_token args || Args.token_only args then
           _ ← print_colored [Lit NL; Lit "JWT Token:"] Colors.YELLOW;
           jwt ← get_jwt_token;
           print_colored [Fmt jwt] Colors.WHITE
         else mret tt);
    if Args.token_only args then
      _ ← print_colored [Lit NL; Lit "Token-only mode: Skipping health checks."]
            Colors.YELLOW;
      mret 0
    else
      _ ← print_header "Health Check Results";
      results ← run_health_checks net config providers (Args.verbose args);
      _ ← print_header "Summary";
      let total_tests := Z.of_nat (List.length results) in
      let passed_tests := count_passed results in
      let failed_tests := total_tests - passed_tests in
      _ ← print_colored [Lit "Total Tests: "; Fmt (PInt total_tests)] Colors.CYAN;
      _ ← print_colored [Lit "Passed: "; Fmt (PInt passed_tests)] Colors.GREEN;
      _ ← print_colored [Lit "Failed: "; Fmt (PInt failed_tests)]
            (if 0 <? failed_tests then Colors.RED else Colors.GREEN);
      mret (if failed_tests =? 0 then 0 else 1).

(** The [except] clauses of [main]. *)
Definition main_except (e : pyexc) : option (M Z) :=
  match e with
  | KeyboardInterrupt =>
      Some (_ ← print_colored [Lit NL; Lit NL; Lit "Health check interrupted by user."]
                  Colors.YELLOW;
            mret 1)
  | PyException _ msg =>
      Some (_ ← print_colored [Lit NL; Lit "Unexpected error: "; Lit msg] Colors.RED;
            mret 1)
  end.

(** [try: body except KeyboardInterrupt: ... except Exception as e: ...
    finally: checker.close()] *)
Definition main_guard (body : M Z) : M Z :=
  try_finally (try_except body main_except) close.

(** [args] is the outcome of [parser.parse_args()]. *)
Definition main (args : Args.t) (env : gmap string string) : M Z :=
  config ← lift (load_config env);
  let username := py_or (of_opt (Args.username args)) (of_opt (Config.DEFAULT_USERNAME config)) in
  let pin := py_or (of_opt (Args.pin args)) (of_opt (Config.DEFAULT_PIN config)) in
  if negb (truthy username) then
    _ ← print_colored
          [Lit "Error: Username is required. Provide --username or set DEFAULT_USERNAME in .env file."]
          Colors.RED;
    mret 1
  else if negb (truthy pin) then
    _ ← print_colored
          [Lit "Error: PIN is required. Provide --pin or set DEFAULT_PIN in .env file."]
          Colors.RED;
    mret 1
  else
    let providers :=
      match Args.provider args with
      | Some c => [choice_name c]
      | None => ["opensource"]
      end in
    _ ← HealthChecker_init config;
    main_guard (main_try args config username pin providers).

End Main.

(** ** The script: [sys.exit(main())] *)

(** How the process ends: its exit status and, when an exception left
    [main], the exception whose traceback the interpreter writes to the
    standard error stream. *)
Record Process : Type := mkProcess {
  exit_code : Z;
  traceback : option pyexc;
  world : World
}.

Definition initial : World := mkWorld PNone [] [] false [].

(** An exception that nothing catches ends the interpreter with status 1
    after the traceback; for [KeyboardInterrupt] the status seen by a
    shell is 130. *)
Definition script (net : network) (args : Args.t) (env : gmap string string) : Process :=
  match main net args env initial with
  | (Ok code, w) => mkProcess code None w
  | (Raise (PyException cls msg), w) => mkProcess 1 (Some (PyException cls msg)) w
  | (Raise KeyboardInterrupt, w) => mkProcess 130 (Some KeyboardInterrupt) w
  end.

(** * Properties *)

(** ** Vocabulary of the statements *)

(** The three probes by provider, as the table [provider_tests] holds them. *)
Definition probe (net : network) (c : choice) : Config.t -> bool -> M ProbeResult.t :=
  match c with
  | opensource => test_opensource_provider net
  | openai => test_openai_provider net
  | anthropic => test_anthropic_provider net
  end.

(** Whether the probe of [c] returns before its [try] statement. *)
Definition gated (c : choice) (config : Config.t) : bool :=
  match c with
  | opensource => false
  | openai => not_configured (Config.OPENAI_API_KEY config) "your_openai_api_key_here"
  | anthropic => not_configured (Config.ANTHROPIC_API_KEY config) "your_anthropic_api_key_here"
  end.

(** The request that the probe of [c] hands to the client when the token is
    [jwt]. *)
Definition probe_request (c : choice) (config : Config.t) (jwt : pyval) : Request.t :=
  match c with
  | opensource =>
      Request.mk (Config.PROXY_BASE_URL config +:+ "/opensource/v1/chat/completions")
        [("Authorization", [Lit "Bearer "; Fmt jwt]);
         ("Content-Type", [Lit "application/json"])]
        (chat_payload "openai--gpt-oss-120b")
  | openai =>
      Request.mk (Config.PROXY_BASE_URL config +:+ "/openai/v1/chat/completions")
        ([("Authorization", [Lit "Bearer "; Fmt jwt]);
          ("Content-Type", [Lit "application/json"]);
          ("X-User-OpenAI-Key", [Fmt (of_opt (Config.OPENAI_API_KEY config))])]
         ++ (if truthy (of_opt (Config.OPENAI_ORG_ID config))
                && negb (bool_decide
                           (Config.OPENAI_ORG_ID config = Some "your_openai_org_id_here"))
             then [("X-User-OpenAI-Org", [Fmt (of_opt (Config.OPENAI_ORG_ID config))])]
             else []))
        (chat_payload "gpt-3.5-turbo")
  | anthropic =>
      Request.mk (Config.PROXY_BASE_URL config +:+ "/anthropic/v1/messages")
        [("Authorization", [Lit "Bearer "; Fmt jwt]);
         ("Content-Type", [Lit "application/json"]);
         ("X-User-Anthropic-Key", [Fmt (of_opt (Config.ANTHROPIC_API_KEY config))])]
        (chat_payload "claude-3-haiku-20240307")
  end.

(** The world once [req] has been given to the client. *)
Definition sending (req : Request.t) (w : World) : World :=
  mkWorld (jwt_token w) (sent w ++ [req]) (stdout w) (closed w) (trace w).

(** The world once [line] has been printed. *)
Definition printing (line : text) (w : World) : World :=
  mkWorld (jwt_token w) (sent w) (stdout w ++ [line]) (closed w) (trace w).

(** The line that [print_colored(t, color)] writes. *)
Definition colored (color : string) (t : text) : text :=
  Lit color :: t ++ [Lit Colors.END].

(** The world once [ev] has been recorded. *)
Definition logging (ev : event) (w : World) : World :=
  mkWorld (jwt_token w) (sent w) (stdout w) (closed w) (trace w ++ [ev]).

(** The world once [self.jwt_token] has been assigned. *)
Definition with_token (v : pyval) (w : World) : World :=
  mkWorld v (sent w) (stdout w) (closed w) (trace w).

(** The request of register_user. *)
Definition register_request (config : Config.t) (username pin : pyval) : Request.t :=
  Request.mk (Config.PROXY_BASE_URL config +:+ "/auth/register") []
    (PDict [("username", username); ("pin", pin)]).

(** [k in d] on the items of a dict. *)
Definition dict_has (d : list (string * pyval)) (k : string) : bool :=
  existsb (fun kv => String.eqb kv.1 k) d.

(** The credentials that [main] settles on. *)
Definition username_of (args : Args.t) (config : Config.t) : pyval :=
  py_or (of_opt (Args.username args)) (of_opt (Config.DEFAULT_USERNAME config)).

Definition pin_of (args : Args.t) (config : Config.t) : pyval :=
  py_or (of_opt (Args.pin args)) (of_opt (Config.DEFAULT_PIN config)).

(** The provider that a run tests. *)
Definition selected (args : Args.t) : choice := default opensource (Args.provider args).

(** A source that gives no value, or the empty string. *)
Definition missing (o : option string) : Prop := truthy (of_opt o) = false.

(** The lines with which [main] reports how it ended. *)
Definition username_required : text :=
  colored Colors.RED
    [Lit "Error: Username is required. Provide --username or set DEFAULT_USERNAME in .env file."].

Definition pin_required : text :=
  colored Colors.RED
    [Lit "Error: PIN is required. Provide --pin or set DEFAULT_PIN in .env file."].

Definition registration_failed : text :=
  colored Colors.RED [Lit "Registration failed. Cannot proceed with health checks."].

Definition interrupted : text :=
  colored Colors.YELLOW [Lit NL; Lit NL; Lit "Health check interrupted by user."].

Definition unexpected_error (msg : string) : text :=
  colored Colors.RED [Lit NL; Lit "Unexpected error: "; Lit msg].

Definition token_line (jwt : pyval) : text := colored Colors.WHITE [Fmt jwt].

(** The world once [self.client.close()] has run. *)
Definition closing (w : World) : World :=
  mkWorld (jwt_token w) (sent w) (stdout w) true (trace w).

(** The world once [print_header(t)] has run. *)
Definition header (t : string) (w : World) : World :=
  printing (colored Colors.CYAN [Lit (repeat_str "=" 60); Lit Colors.END])
    (printing (colored (Colors.CYAN +:+ Colors.BOLD) [Lit (center t 60)])
       (printing (colored Colors.CYAN [Lit NL; Lit Colors.BOLD; Lit (repeat_str "=" 60)])
          w)).

(** The world when [main] calls register_user: the banner is out. *)
Definition banner (config : Config.t) (username : pyval) (providers : list string)
  (w : World) : World :=
  printing (colored Colors.BLUE [Lit NL; Lit "Registering user '"; Fmt username; Lit "'..."])
    (printing (colored Colors.CYAN [Lit "Providers: "; Lit (join ", " providers)])
       (printing (colored Colors.CYAN [Lit "Username: "; Fmt username])
          (printing (colored Colors.CYAN [Lit "Proxy URL: "; Lit (Config.PROXY_BASE_URL config)])
             (header "AI Tools LLM Proxy Health Checker" w)))).

(** The world once [main] has shown the token, if it was asked to. *)
Definition token_shown (args : Args.t) (w : World) : World :=
  if Args.show_token args || Args.token_only args then
    printing (token_line (jwt_token w))
      (printing (colored Colors.YELLOW [Lit NL; Lit "JWT Token:"]) w)
  else w.

Definition token_only_line : text :=
  colored Colors.YELLOW [Lit NL; Lit "Token-only mode: Skipping health checks."].

(** The exit code that the summary of [main] computes. *)
Definition summary_code (results : list (string * ProbeResult.t)) : Z :=
  if Z.of_nat (List.length results) - count_passed results =? 0 then 0 else 1.

(** The last line of the summary. *)
Definition failed_line (results : list (string * ProbeResult.t)) : text :=
  colored (if 0 <? Z.of_nat (List.length results) - count_passed results
           then Colors.RED else Colors.GREEN)
    [Lit "Failed: "; Fmt (PInt (Z.of_nat (List.length results) - count_passed results))].

(** The world once the summary is out. *)
Definition summary (results : list (string * ProbeResult.t)) (w : World) : World :=
  printing (failed_line results)
    (printing (colored Colors.GREEN [Lit "Passed: "; Fmt (PInt (count_passed results))])
       (printing (colored Colors.CYAN
                    [Lit "Total Tests: "; Fmt (PInt (Z.of_nat (List.length results)))])
          (header "Summary" w))).

(** The world once run_health_checks has reported the result of a probe. *)
Definition reported (provider : string) (verbose : bool) (result : ProbeResult.t)
  (w : World) : World :=
  let w1 :=
    printing
      (colored (if ProbeResult.success result then Colors.GREEN else Colors.RED)
         ([Lit (ljust (capitalize provider) 12); Lit " ";
           Lit (ljust ("[" +:+ (if ProbeResult.success result then "PASS" else "FAIL") +:+ "]") 8);
           Lit " "]
          ++ (if ProbeResult.success result
              then [Lit "("; Fmt2f (ProbeResult.response_time result); Lit "s)"]
              else [Lit "Error: "; Fmt (ProbeResult.error result)])))
      w in
  if verbose && truthy (default PNone (ProbeResult.full_response result)) then
    printing [Dumps (default PNone (ProbeResult.full_response result))]
      (printing (colored Colors.YELLOW
                   [Lit NL; Lit "Detailed response for "; Lit provider; Lit ":"]) w1)
  else w1.

(** The world when run_health_checks calls the probe of [provider]. *)
Definition announced (provider : string) (w : World) : World :=
  logging (Invoked provider)
    (printing (colored Colors.BLUE [Lit NL; Lit "Testing "; Lit provider; Lit " provider..."])
       w).

(** Whether every probe that was entered handed back a result, and a
    successful one. *)
Fixpoint probes_passed (tr : list event) : bool :=
  match tr with
  | [] => true
  | Invoked _ :: Produced _ result :: tr' => ProbeResult.success result && probes_passed tr'
  | _ => false
  end.

(** The lines that close a run which stopped before its end: a credential is
    missing, the registration failed, the user interrupted, an exception
    reached the handler of [main]. *)
Definition early_line (line : text) : Prop :=
  line = username_required
  \/ line = pin_required
  \/ line = registration_failed
  \/ line = interrupted
  \/ exists msg : string, line = unexpected_error msg.

(** A run stopped early when an exception left [main], or when the last line
    it printed is one of the above. *)
Definition ended_early (p : Process) : Prop :=
  traceback p <> None
  \/ exists line : text, last (stdout (world p)) = Some line /\ early_line line.

(** The API key that gates the probe of [c]; the opensource probe has none. *)
Definition api_key (c : choice) (config : Config.t) : option (option string * string) :=
  match c with
  | opensource => None
  | openai => Some (Config.OPENAI_API_KEY config, "your_openai_api_key_here")
  | anthropic => Some (Config.ANTHROPIC_API_KEY config, "your_anthropic_api_key_here")
  end.

(** The probe of [c] has a key, and it is absent, empty or the placeholder. *)
Definition key_missing (c : choice) (config : Config.t) : Prop :=
  exists (key : option string) (placeholder : string),
    api_key c config = Some (key, placeholder)
    /\ (key = None \/ key = Some EmptyString \/ key = Some placeholder).

(** The names of the probes entered, in order. *)
Definition invocations (tr : list event) : list string :=
  flat_map (fun ev => match ev with Invoked name => [name] | Produced _ _ => [] end) tr.

(** A line other than the one that shows a token. *)
Definition plain (line : text) : Prop := forall v : pyval, line <> token_line v.

(** [w'] has printed what [w] had, and then lines that show no token. *)
Definition plainly_extends (w w' : World) : Prop :=
  exists lines : list text, stdout w' = stdout w ++ lines /\ Forall plain lines.

(** The three lines that end the summary of a run with one probe. *)
Definition summary_lines (passed : bool) : list text :=
  [colored Colors.CYAN [Lit "Total Tests: "; Fmt (PInt 1)];
   colored Colors.GREEN [Lit "Passed: "; Fmt (PInt (if passed then 1 else 0))];
   colored (if passed then Colors.GREEN else Colors.RED)
     [Lit "Failed: "; Fmt (PInt (if passed then 0 else 1))]].

(** The variables of the environment that load_config reads. *)
Definition config_variables : list string :=
  ["OPENAI_API_KEY"; "OPENAI_ORG_ID"; "ANTHROPIC_API_KEY"; "PROXY_BASE_URL";
   "PROXY_TIMEOUT"; "DEFAULT_USERNAME"; "DEFAULT_PIN"].

(** ** Sample inputs, and the sentences that the code does not meet *)

(** The configuration of an empty environment. *)
Definition config_default : Config.t :=
  Config.mk None None None "http://aitools.cs.vt.edu:7860" 30 None None.

(** An environment with default credentials, and its configuration. *)
Definition bob_in_env : gmap string string :=
  <["DEFAULT_USERNAME" := "bob"]> (<["DEFAULT_PIN" := "0000"]> ∅).

Definition config_bob : Config.t :=
  Config.mk None None None "http://aitools.cs.vt.edu:7860" 30 (Some "bob") (Some "0000").

(** A command line without options. *)
Definition nobody : Args.t := Args.mk false false false None None None.

(** A command line with credentials only. *)
Definition alice : Args.t :=
  Args.mk false false false None (Some "alice") (Some "1234").

(** The same with --show-token. *)
Definition alice_show_token : Args.t :=
  Args.mk false true false None (Some "alice") (Some "1234").

(** The same with --token-only. *)
Definition alice_token_only : Args.t :=
  Args.mk false false true None (Some "alice") (Some "1234").

(** A proxy that answers every request with 500 after a quarter of a second. *)
Definition server_error : Response.t :=
  Response.mk 500 "Internal Server Error"
    (Raise (PyException "JSONDecodeError" "Expecting value: line 1 column 1 (char 0)"))
    0.25%float.

(** An answer 200 whose body is an object with an empty token. *)
Definition empty_token : Response.t :=
  Response.mk 200 ("{" +:+ DQ +:+ "token" +:+ DQ +:+ ": " +:+ DQ +:+ DQ +:+ "}")
    (Ok (PDict [("token", PStr EmptyString)])) 0.125%float.

(** A network on which every connection times out. *)
Definition unreachable : network :=
  fun _ _ => Fails (PyException "ConnectTimeout" "timed out").

(** A proxy that refuses every request with 401. *)
Definition unauthorized : network :=
  fun _ _ =>
    Responds (Response.mk 401 "Unauthorized"
                (Raise (PyException "JSONDecodeError"
                          "Expecting value: line 1 column 1 (char 0)"))
                0.125%float).

(** A proxy that answers every request with 200 and the token abc. *)
Definition healthy : network :=
  fun _ _ =>
    Responds (Response.mk 200
                ("{" +:+ DQ +:+ "token" +:+ DQ +:+ ": " +:+ DQ +:+ "abc" +:+ DQ +:+ "}")
                (Ok (PDict [("token", PStr "abc")]))
                0.25%float).

(** A proxy that registers the user and is interrupted during the next
    request. *)
Definition interrupting : network :=
  fun n _ =>
    match n with
    | O => Responds (Response.mk 200 "{}" (Ok (PDict [("token", PStr "abc")])) 0.25%float)
    | S _ => Fails KeyboardInterrupt
    end.

(** What register_user does is settled by the answer to its request: the
    token it obtains, if any. *)
Definition registered_token (answer : outcome) : option pyval :=
  match answer with
  | Responds response =>
      if Response.status_code response =? 200 then
        match Response.json response with
        | Ok (PDict d) =>
            if truthy (dict_get d "token") then Some (dict_get d "token") else None
        | _ => None
        end
      else None
  | Fails _ => None
  end.

(** The sentence of the specification on a response other than 200, as it is
    written: the result is a failure, carries the body text as its error and
    has no elapsed time (a value that Python takes for false: [None], 0 or
    0.0). *)
Definition non_200_without_elapsed (net : network) (c : choice) (config : Config.t)
  (verbose : bool) (w : World) : Prop :=
  forall response : Response.t,
    net (List.length (sent w)) (probe_request c config (jwt_token w)) = Responds response ->
    Response.status_code response <> 200 ->
    exists (result : ProbeResult.t) (w' : World),
      probe net c config verbose w = (Ok result, w')
      /\ ProbeResult.success result = false
      /\ ProbeResult.error result = PStr (Response.text response)
      /\ truthy (ProbeResult.response_time result) = false.

(** The sentence of the specification on registration, as it is written:
    register_user returns True exactly when the answer has status 200 and its
    JSON body has a token field. *)
Definition success_iff_token_field (net : network) (config : Config.t)
  (username pin : pyval) (w : World) : Prop :=
  (register_user net config username pin w).1 = Ok true
  <-> exists (response : Response.t) (d : list (string * pyval)),
        net (List.length (sent w)) (register_request config username pin)
        = Responds response
        /\ Response.status_code response = 200
        /\ Response.json response = Ok (PDict d)
        /\ dict_has d "token" = true.

(** The sentence of the specification on exceptions, read over every path of
    [main]: whatever the command line, the environment and the network,
    [main] returns an exit code. *)
Definition no_exception_leaves_main (net : network) (args : Args.t)
  (env : gmap string string) : Prop :=
  exists (code : Z) (w : World), main net args env initial = (Ok code, w).

(** ** Unfolding the monad *)

Ltac run :=
  repeat (progress (cbv beta delta
    [mbind M_bind mret M_ret lift raise try_except try_finally except_Exception
     get_jwt_token set_jwt_token print log print_colored print_header print_status
     client_post get_token close HealthChecker_init]
    in *; cbn beta iota zeta delta [jwt_token sent stdout closed trace] in *)).

(** Reading a field of a world that is built by the functions above. *)
Ltac worlds :=
  cbn [exit_code traceback world jwt_token sent stdout closed trace fst snd
       closing printing sending logging with_token banner header initial app] in *.

Lemma probe_request_sent (net : network) (c : choice) (config : Config.t) (w : World) :
  gated c config = false ->
  forall verbose : bool,
    probe net c config verbose w =
    match net (List.length (sent w)) (probe_request c config (jwt_token w)) with
    | Responds response =>
        if Response.status_code response =? 200 then
          match Response.json response with
          | Ok data =>
              (Ok (ProbeResult.mk (choice_name c) 200 true
                     (PFloat (Response.elapsed response)) PNone data
                     (if verbose then Some data else None)),
               sending (probe_request c config (jwt_token w)) w)
          | Raise (PyException _ msg) =>
              (Ok (ProbeResult.mk (choice_name c) 0 false (PInt 0) (PStr msg) PNone None),
               sending (probe_request c config (jwt_token w)) w)
          | Raise KeyboardInterrupt =>
              (Raise KeyboardInterrupt, sending (probe_request c config (jwt_token w)) w)
          end
        else
          (Ok (ProbeResult.mk (choice_name c) (Response.status_code response) false
                 (PFloat (Response.elapsed response))
                 (PStr (Response.text response)) PNone None),
           sending (probe_request c config (jwt_token w)) w)
    | Fails (PyException _ msg) =>
        (Ok (ProbeResult.mk (choice_name c) 0 false (PInt 0) (PStr msg) PNone None),
         sending (probe_request c config (jwt_token w)) w)
    | Fails KeyboardInterrupt =>
        (Raise KeyboardInterrupt, sending (probe_request c config (jwt_token w)) w)
    end.
Proof.
  intros Hg verbose.
  destruct c; simpl in Hg; unfold probe, test_openai_provider, test_anthropic_provider,
    test_opensource_provider; rewrite ?Hg; run; unfold probe_request, sending;
    try (destruct (truthy (of_opt (Config.OPENAI_ORG_ID config)) && _); simpl);
    (match goal with |- context [net ?n ?r] => destruct (net n r) as [response | [cls msg | ]] end);
    try reflexivity;
    (destruct (Response.status_code response =? 200) eqn:Hs; [ | reflexivity ]);
    apply Z.eqb_eq in Hs;
    (destruct (Response.json response) as [data | [cls msg | ]]; run;
     rewrite ?Hs; try reflexivity; destruct verbose; reflexivity).
Qed.

Lemma probe_gated (net : network) (c : choice) (config : Config.t) (verbose : bool)
  (w : World) :
  gated c config = true ->
  exists label : string,
    probe net c config verbose w =
    (Ok (ProbeResult.mk (choice_name c) 0 false (PInt 0)
           (PStr (label +:+ " API key not configured")) PNone None), w).
Proof.
  intros Hg. destruct c; simpl in Hg; try discriminate.
  - exists "OpenAI". unfold probe, test_openai_provider. rewrite Hg. reflexivity.
  - exists "Anthropic". unfold probe, test_anthropic_provider. rewrite Hg. reflexivity.
Qed.

Lemma not_configured_absent (key : option string) (placeholder : string) :
  key = None \/ key = Some placeholder -> not_configured key placeholder = true.
Proof.
  intros [-> | ->]; unfold not_configured; simpl; [reflexivity | ].
  rewrite bool_decide_eq_true_2 by reflexivity. apply orb_true_r.
Qed.

(** ** The probes *)

(** C4: the openai and the anthropic probe, when the API key is absent or is
    the placeholder text, hand back the failure result with status 0,
    response time 0 and the error "<Provider> API key not configured", and
    leave the world as it was: nothing is sent to the client. *)
Theorem unconfigured_probes_short_circuit (net : network) (config : Config.t)
  (verbose : bool) (w : World) :
  ((Config.OPENAI_API_KEY config = None
    \/ Config.OPENAI_API_KEY config = Some "your_openai_api_key_here") ->
   test_openai_provider net config verbose w =
   (Ok (ProbeResult.mk "openai" 0 false (PInt 0)
          (PStr "OpenAI API key not configured") PNone None), w))
  /\
  ((Config.ANTHROPIC_API_KEY config = None
    \/ Config.ANTHROPIC_API_KEY config = Some "your_anthropic_api_key_here") ->
   test_anthropic_provider net config verbose w =
   (Ok (ProbeResult.mk "anthropic" 0 false (PInt 0)
          (PStr "Anthropic API key not configured") PNone None), w)).
Proof.
  split; intros H; apply not_configured_absent in H.
  - unfold test_openai_provider. rewrite H. reflexivity.
  - unfold test_anthropic_provider. rewrite H. reflexivity.
Qed.

(** C5, as stated, fails: on a 500 answer the opensource probe keeps the
    elapsed time of the response in the result. *)
Lemma non_200_keeps_elapsed_time :
  ~ non_200_without_elapsed (fun _ _ => Responds server_error) opensource
      config_default false initial.
Proof.
  intros H. destruct (H server_error) as (result & w' & Hrun & _ & _ & Htime).
  - reflexivity.
  - discriminate.
  - vm_compute in Hrun. injection Hrun as <- _. vm_compute in Htime. discriminate.
Qed.

(** C5, amended: when the request of a probe is answered with a status other
    than 200, the result is a failure with that status, the body text as its
    error, no response data, and the elapsed time of the response as its
    response time. *)
Theorem non_200_result (net : network) (c : choice) (config : Config.t) (verbose : bool)
  (w : World) (response : Response.t) :
  gated c config = false ->
  net (List.length (sent w)) (probe_request c config (jwt_token w)) = Responds response ->
  Response.status_code response <> 200 ->
  probe net c config verbose w =
  (Ok (ProbeResult.mk (choice_name c) (Response.status_code response) false
         (PFloat (Response.elapsed response)) (PStr (Response.text response)) PNone None),
   sending (probe_request c config (jwt_token w)) w).
Proof.
  intros Hg Hnet Hs. rewrite probe_request_sent by assumption. rewrite Hnet.
  apply Z.eqb_neq in Hs. rewrite Hs. reflexivity.
Qed.

Lemma non_200_result_witness :
  probe (fun _ _ => Responds server_error) opensource config_default false initial =
  (Ok (ProbeResult.mk "opensource" 500 false (PFloat 0.25%float)
         (PStr "Internal Server Error") PNone None),
   sending (probe_request opensource config_default PNone) initial).
Proof.
  apply (non_200_result (fun _ _ => Responds server_error) opensource config_default
           false initial server_error); [reflexivity | reflexivity | discriminate].
Defined.

(** C6: when the client raises an exception for the request of a probe, the
    probe hands back status 0, response time 0, failure, and the text of the
    exception as its error; the world has received that one request and
    nothing else.  More generally a probe that is not gated gives the client
    exactly one request, whatever the answer. *)
Theorem transport_exception_result (net : network) (c : choice) (config : Config.t)
  (verbose : bool) (w : World) (cls msg : string) :
  gated c config = false ->
  net (List.length (sent w)) (probe_request c config (jwt_token w))
  = Fails (PyException cls msg) ->
  probe net c config verbose w =
  (Ok (ProbeResult.mk (choice_name c) 0 false (PInt 0) (PStr msg) PNone None),
   sending (probe_request c config (jwt_token w)) w)
  /\ (forall net' : network,
        sent (probe net' c config verbose w).2
        = sent w ++ [probe_request c config (jwt_token w)]).
Proof.
  intros Hg Hnet. split.
  - rewrite probe_request_sent by assumption. rewrite Hnet. reflexivity.
  - intros net'. rewrite probe_request_sent by assumption.
    destruct (net' _ _) as [response | [cls' msg' | ]]; try reflexivity.
    destruct (Response.status_code response =? 200); [ | reflexivity].
    destruct (Response.json response) as [data | [cls' msg' | ]]; reflexivity.
Qed.

Lemma transport_exception_result_witness :
  probe unreachable opensource config_default true initial =
  (Ok (ProbeResult.mk "opensource" 0 false (PInt 0) (PStr "timed out") PNone None),
   sending (probe_request opensource config_default PNone) initial)
  /\ (forall net' : network,
        sent (probe net' opensource config_default true initial).2
        = [probe_request opensource config_default PNone]).
Proof.
  apply (transport_exception_result unreachable opensource config_default true initial
           "ConnectTimeout" "timed out"); reflexivity.
Defined.

(** C10: whatever the configuration, the answer of the network and the
    branch taken, a probe either hands back a result whose success flag is
    true exactly when its status code is 200, or is cut short by
    KeyboardInterrupt; no other exception leaves it. *)
Theorem success_iff_status_200 (net : network) (c : choice) (config : Config.t)
  (verbose : bool) (w : World) :
  match (probe net c config verbose w).1 with
  | Ok result => ProbeResult.success result = true <-> ProbeResult.status_code result = 200
  | Raise e => e = KeyboardInterrupt
  end.
Proof.
  destruct (gated c config) eqn:Hg.
  - destruct (probe_gated net c config verbose w Hg) as [label ->]. simpl. split; discriminate.
  - rewrite probe_request_sent by assumption.
    destruct (net _ _) as [response | [cls msg | ]]; simpl;
      [ | split; discriminate | reflexivity].
    destruct (Response.status_code response =? 200) eqn:Hs.
    + destruct (Response.json response) as [data | [cls msg | ]]; simpl;
        [tauto | split; discriminate | reflexivity].
    + simpl. apply Z.eqb_neq in Hs. split; [discriminate | contradiction].
Qed.

(** ** Registration *)

Lemma register_user_run (net : network) (config : Config.t) (username pin : pyval)
  (w : World) :
  register_user net config username pin w =
  let w1 := sending (register_request config username pin) w in
  match net (List.length (sent w)) (register_request config username pin) with
  | Responds response =>
      if Response.status_code response =? 200 then
        match Response.json response with
        | Ok (PDict d) =>
            if truthy (dict_get d "token") then
              (Ok true,
               printing (colored Colors.GREEN
                           [Lit "✓ Registration successful for user: "; Fmt username])
                 (with_token (dict_get d "token") w1))
            else
              (Ok false,
               printing (colored Colors.RED [Lit "✗ Registration failed: No token received"])
                 (with_token (dict_get d "token") w1))
        | Ok data =>
            (Ok false,
             printing (colored Colors.RED
                         [Lit "✗ Registration error: ";
                          Lit ("'" +:+ type_name data +:+ "' object has no attribute 'get'")])
               w1)
        | Raise (PyException _ msg) =>
            (Ok false,
             printing (colored Colors.RED [Lit "✗ Registration error: "; Lit msg]) w1)
        | Raise KeyboardInterrupt => (Raise KeyboardInterrupt, w1)
        end
      else
        (Ok false,
         printing (colored Colors.RED
                     [Lit "✗ Registration failed: ";
                      Fmt (PInt (Response.status_code response));
                      Lit " - "; Lit (Response.text response)]) w1)
  | Fails (PyException _ msg) =>
      (Ok false,
       printing (colored Colors.RED [Lit "✗ Registration error: "; Lit msg]) w1)
  | Fails KeyboardInterrupt => (Raise KeyboardInterrupt, w1)
  end.
Proof.
  unfold register_user, register_request. run.
  destruct (net _ _) as [response | [cls msg | ]]; try reflexivity.
  destruct (Response.status_code response =? 200); [ | reflexivity].
  destruct (Response.json response) as [data | [cls msg | ]]; try reflexivity.
  destruct data; try reflexivity.
  run. simpl. destruct (truthy (dict_get d "token")); reflexivity.
Qed.

Lemma dict_get_absent (d : list (string * pyval)) (k : string) :
  dict_has d k = false -> dict_get d k = PNone.
Proof.
  induction d as [ | [k' v] d IH]; simpl; [reflexivity | ].
  destruct (String.eqb k' k); simpl; [discriminate | exact IH].
Qed.

(** C3, as stated, fails: a body with a token field whose value is the empty
    string is answered with "No token received" and False. *)
Lemma empty_token_is_refused :
  ~ success_iff_token_field (fun _ _ => Responds empty_token) config_default
      (PStr "alice") (PStr "1234") initial.
Proof.
  intros [_ H].
  assert (Hrun : (register_user (fun _ _ => Responds empty_token) config_default
                    (PStr "alice") (PStr "1234") initial).1 = Ok false)
    by (vm_compute; reflexivity).
  rewrite H in Hrun; [discriminate | ].
  exists empty_token, [("token", PStr EmptyString)].
  repeat split; reflexivity.
Qed.

(** C3, amended: register_user returns True exactly when the answer has
    status 200 and its body decodes to an object whose token field holds a
    value that Python takes for true (so not null, not the empty string); the
    value of the field is stored in [jwt_token], "abc" for the body
    {token: abc}; an answer 200 without a token field, an answer with
    another status and an exception raised by the client all give False. *)
Theorem register_user_success (net : network) (config : Config.t) (username pin : pyval)
  (w : World) :
  let answer := net (List.length (sent w)) (register_request config username pin) in
  let run := register_user net config username pin w in
  (run.1 = Ok true
   <-> exists (response : Response.t) (d : list (string * pyval)),
         answer = Responds response
         /\ Response.status_code response = 200
         /\ Response.json response = Ok (PDict d)
         /\ truthy (dict_get d "token") = true)
  /\ (forall (response : Response.t) (d : list (string * pyval)),
        answer = Responds response ->
        Response.status_code response = 200 ->
        Response.json response = Ok (PDict d) ->
        jwt_token run.2 = dict_get d "token")
  /\ (forall response : Response.t,
        answer = Responds response ->
        Response.status_code response = 200 ->
        Response.json response = Ok (PDict [("token", PStr "abc")]) ->
        run.1 = Ok true /\ jwt_token run.2 = PStr "abc")
  /\ (forall (response : Response.t) (d : list (string * pyval)),
        answer = Responds response ->
        Response.status_code response = 200 ->
        Response.json response = Ok (PDict d) ->
        dict_has d "token" = false ->
        run.1 = Ok false)
  /\ (forall response : Response.t,
        answer = Responds response ->
        Response.status_code response <> 200 ->
        run.1 = Ok false)
  /\ (forall cls msg : string,
        answer = Fails (PyException cls msg) -> run.1 = Ok false).
Proof.
  intros answer run. subst answer run. rewrite register_user_run. cbv zeta.
  split; [ | split; [ | split; [ | split; [ | split]]]].
  - split.
    + destruct (net _ _) as [response | [cls msg | ]]; try discriminate.
      destruct (Response.status_code response =? 200) eqn:Hs; [ | discriminate].
      destruct (Response.json response) as [data | [cls msg | ]] eqn:Hj; try discriminate.
      destruct data; try discriminate.
      destruct (truthy (dict_get d "token")) eqn:Ht; [ | discriminate].
      intros _. exists response, d. apply Z.eqb_eq in Hs. auto.
    + intros (response & d & -> & Hs & -> & Ht).
      apply Z.eqb_eq in Hs. rewrite Hs, Ht. reflexivity.
  - intros response d -> Hs ->. apply Z.eqb_eq in Hs. rewrite Hs.
    destruct (truthy (dict_get d "token")); reflexivity.
  - intros response -> Hs ->. apply Z.eqb_eq in Hs. rewrite Hs. split; reflexivity.
  - intros response d -> Hs -> Hd. apply Z.eqb_eq in Hs. rewrite Hs.
    rewrite (dict_get_absent d "token" Hd). reflexivity.
  - intros response -> Hs. apply Z.eqb_neq in Hs. rewrite Hs. reflexivity.
  - intros cls msg ->. reflexivity.
Qed.

(** ** main: configuration and credentials *)

Lemma load_config_raises (env : gmap string string) (e : pyexc) :
  load_config env = Raise e ->
  e = PyException "ValueError"
        ("invalid literal for int() with base 10: '"
         +:+ default "30" (env !! "PROXY_TIMEOUT") +:+ "'").
Proof.
  unfold load_config, int_of_env.
  destruct (py_int _); [discriminate | ]. intros [= <-]. reflexivity.
Qed.

Lemma load_config_defaults (env : gmap string string) (config : Config.t) :
  load_config env = Ok config ->
  Config.DEFAULT_USERNAME config = env !! "DEFAULT_USERNAME"
  /\ Config.DEFAULT_PIN config = env !! "DEFAULT_PIN".
Proof.
  unfold load_config. destruct (int_of_env _); [ | discriminate].
  intros [= <-]. split; reflexivity.
Qed.

Lemma py_or_missing (a b : option string) :
  missing a -> missing b -> truthy (py_or (of_opt a) (of_opt b)) = false.
Proof. unfold missing, py_or. intros -> ->. reflexivity. Qed.

(** What [main] does when a credential is missing and the configuration
    loads. *)
Lemma main_missing_username (net : network) (args : Args.t) (env : gmap string string)
  (config : Config.t) (w : World) :
  load_config env = Ok config ->
  truthy (username_of args config) = false ->
  main net args env w = (Ok 1, printing username_required w).
Proof.
  intros Hc Hu. unfold main. run. rewrite Hc. fold (username_of args config).
  rewrite Hu. reflexivity.
Qed.

Lemma main_missing_pin (net : network) (args : Args.t) (env : gmap string string)
  (config : Config.t) (w : World) :
  load_config env = Ok config ->
  truthy (username_of args config) = true ->
  truthy (pin_of args config) = false ->
  main net args env w = (Ok 1, printing pin_required w).
Proof.
  intros Hc Hu Hp. unfold main. run. rewrite Hc.
  fold (username_of args config) (pin_of args config). rewrite Hu, Hp. reflexivity.
Qed.

Lemma main_config_error (net : network) (args : Args.t) (env : gmap string string)
  (e : pyexc) (w : World) :
  load_config env = Raise e -> main net args env w = (Raise e, w).
Proof. intros Hc. unfold main. run. rewrite Hc. reflexivity. Qed.

Lemma main_missing_credentials (net : network) (args : Args.t)
  (env : gmap string string) (config : Config.t) (w : World) :
  load_config env = Ok config ->
  (missing (Args.username args) /\ missing (env !! "DEFAULT_USERNAME"))
  \/ (missing (Args.pin args) /\ missing (env !! "DEFAULT_PIN")) ->
  main net args env w = (Ok 1, printing username_required w)
  \/ main net args env w = (Ok 1, printing pin_required w).
Proof.
  intros Hc Hmiss.
  destruct (load_config_defaults env config Hc) as [Hdu Hdp].
  destruct (truthy (username_of args config)) eqn:Hu.
  - right. apply (main_missing_pin net args env config w Hc Hu).
    destruct Hmiss as [[Ha Hb] | [Ha Hb]].
    + unfold username_of in Hu. rewrite Hdu in Hu.
      rewrite (py_or_missing _ _ Ha Hb) in Hu. discriminate.
    + unfold pin_of. rewrite Hdp. apply py_or_missing; assumption.
  - left. exact (main_missing_username net args env config w Hc Hu).
Qed.

(** C2: when no username comes from the command line or the environment, or
    no PIN does, the process ends with status 1 and has given no request to
    the client; what it has printed is the line "Error: Username is required"
    or "Error: PIN is required", and nothing else, unless PROXY_TIMEOUT is
    not an integer, in which case load_config has raised before the check
    and the error printed is the traceback of that ValueError. *)
Theorem missing_credentials_exit (net : network) (args : Args.t) (env : gmap string string) :
  (missing (Args.username args) /\ missing (env !! "DEFAULT_USERNAME"))
  \/ (missing (Args.pin args) /\ missing (env !! "DEFAULT_PIN")) ->
  let p := script net args env in
  exit_code p = 1
  /\ sent (world p) = []
  /\ ((traceback p = None
       /\ (stdout (world p) = [username_required] \/ stdout (world p) = [pin_required]))
      \/ (stdout (world p) = []
          /\ exists msg : string, traceback p = Some (PyException "ValueError" msg))).
Proof.
  intros Hmiss p. subst p. unfold script.
  destruct (load_config env) as [config | e] eqn:Hc.
  - destruct (main_missing_credentials net args env config initial Hc Hmiss) as [-> | ->];
      worlds; (split; [reflexivity | split; [reflexivity | ]]); left;
      (split; [reflexivity | ]); [left | right]; reflexivity.
  - rewrite (main_config_error net args env e initial Hc).
    rewrite (load_config_raises env e Hc). worlds.
    split; [reflexivity | split; [reflexivity | ]]. right. split; [reflexivity | ].
    eexists. reflexivity.
Qed.

Lemma missing_credentials_exit_witness :
  let p := script unreachable nobody ∅ in
  exit_code p = 1
  /\ sent (world p) = []
  /\ ((traceback p = None
       /\ (stdout (world p) = [username_required] \/ stdout (world p) = [pin_required]))
      \/ (stdout (world p) = []
          /\ exists msg : string, traceback p = Some (PyException "ValueError" msg))).
Proof.
  apply (missing_credentials_exit unreachable nobody ∅).
  left. split; reflexivity.
Defined.

(** ** main: the guarded run *)

Lemma provider_tests_lookup (net : network) (config : Config.t) (c : choice) :
  dict_lookup (choice_name c) (provider_tests net config) = Some (probe net c config).
Proof. destruct c; reflexivity. Qed.

Lemma run_health_checks_single (net : network) (config : Config.t) (c : choice)
  (verbose : bool) (w : World) :
  run_health_checks net config [choice_name c] verbose w =
  match probe net c config verbose (announced (choice_name c) w) with
  | (Ok result, w1) =>
      (Ok [(choice_name c, result)],
       reported (choice_name c) verbose result
         (logging (Produced (choice_name c) result) w1))
  | (Raise e, w1) => (Raise e, w1)
  end.
Proof.
  unfold run_health_checks. cbn [run_health_checks_loop].
  rewrite provider_tests_lookup. unfold call_probe, announced, reported, logging, printing.
  run.
  destruct (probe net c config verbose _) as [[result | e] w1]; [ | reflexivity].
  cbn [dict_set].
  destruct (ProbeResult.success result), verbose; cbn [andb];
    try reflexivity;
    destruct (truthy (default PNone (ProbeResult.full_response result))); reflexivity.
Qed.

Lemma main_try_run (net : network) (args : Args.t) (config : Config.t)
  (username pin : pyval) (providers : list string) (w : World) :
  main_try net args config username pin providers w =
  match register_user net config username pin (banner config username providers w) with
  | (Ok true, w1) =>
      if Args.token_only args then
        (Ok 0, printing token_only_line (token_shown args w1))
      else
        match run_health_checks net config providers (Args.verbose args)
                (header "Health Check Results" (token_shown args w1)) with
        | (Ok results, w2) => (Ok (summary_code results), summary results w2)
        | (Raise e, w2) => (Raise e, w2)
        end
  | (Ok false, w1) => (Ok 1, printing registration_failed w1)
  | (Raise e, w1) => (Raise e, w1)
  end.
Proof.
  unfold main_try, banner, token_shown, header, summary, summary_code, failed_line,
    token_only_line, registration_failed, token_line, colored, printing.
  run.
  match goal with |- context [register_user ?n ?cf ?u ?p ?w0] =>
    destruct (register_user n cf u p w0) as [[[ | ] | e] w1] end; try reflexivity.
  cbn [negb].
  destruct (Args.show_token args), (Args.token_only args); cbn [orb];
    run; try reflexivity;
    (match goal with |- context [run_health_checks ?n ?cf ?ps ?v ?w0] =>
       destruct (run_health_checks n cf ps v w0) as [[results | e] w2] end);
    reflexivity.
Qed.

Lemma main_guard_run (body : M Z) (w : World) :
  main_guard body w =
  match body w with
  | (Ok code, w') => (Ok code, closing w')
  | (Raise KeyboardInterrupt, w') => (Ok 1, closing (printing interrupted w'))
  | (Raise (PyException _ msg), w') => (Ok 1, closing (printing (unexpected_error msg) w'))
  end.
Proof.
  unfold main_guard. run. destruct (body w) as [[code | [cls msg | ]] w']; reflexivity.
Qed.

Lemma main_run (net : network) (args : Args.t) (env : gmap string string)
  (config : Config.t) (w : World) :
  load_config env = Ok config ->
  truthy (username_of args config) = true ->
  truthy (pin_of args config) = true ->
  main net args env w =
  main_guard (main_try net args config (username_of args config) (pin_of args config)
                [choice_name (selected args)])
    (with_token PNone w).
Proof.
  intros Hc Hu Hp. unfold main. run. rewrite Hc.
  fold (username_of args config) (pin_of args config). rewrite Hu, Hp.
  unfold selected. destruct (Args.provider args); reflexivity.
Qed.

Lemma register_user_true (net : network) (config : Config.t) (username pin : pyval)
  (w : World) (token : pyval) :
  registered_token (net (List.length (sent w)) (register_request config username pin))
  = Some token ->
  truthy token = true
  /\ register_user net config username pin w =
     (Ok true,
      printing (colored Colors.GREEN
                  [Lit "✓ Registration successful for user: "; Fmt username])
        (with_token token (sending (register_request config username pin) w))).
Proof.
  rewrite register_user_run. cbv zeta. unfold registered_token.
  destruct (net _ _) as [response | e]; [ | discriminate].
  destruct (Response.status_code response =? 200); [ | discriminate].
  destruct (Response.json response) as [data | e]; [ | discriminate].
  destruct data; try discriminate.
  destruct (truthy (dict_get d "token")) eqn:Ht; [ | discriminate].
  intros [= <-]. split; [exact Ht | reflexivity].
Qed.

Lemma register_user_not_true (net : network) (config : Config.t) (username pin : pyval)
  (w : World) :
  registered_token (net (List.length (sent w)) (register_request config username pin))
  = None ->
  exists w' : World,
    sent w' = sent w ++ [register_request config username pin]
    /\ trace w' = trace w
    /\ closed w' = closed w
    /\ (register_user net config username pin w = (Ok false, w')
        \/ register_user net config username pin w = (Raise KeyboardInterrupt, w')).
Proof.
  rewrite register_user_run. cbv zeta. unfold registered_token.
  assert (Hfalse : forall (w' : World),
             sent w' = sent w ++ [register_request config username pin] ->
             trace w' = trace w -> closed w' = closed w ->
             exists w'' : World,
               sent w'' = sent w ++ [register_request config username pin]
               /\ trace w'' = trace w /\ closed w'' = closed w
               /\ ((Ok false, w') = (Ok false, w'')
                   \/ (@Ok bool false, w') = (Raise KeyboardInterrupt, w''))).
  { intros w' H1 H2 H3. exists w'. auto. }
  assert (Hraise : exists w'' : World,
               sent w'' = sent w ++ [register_request config username pin]
               /\ trace w'' = trace w /\ closed w'' = closed w
               /\ ((@Raise bool KeyboardInterrupt,
                     sending (register_request config username pin) w) = (Ok false, w'')
                   \/ (@Raise bool KeyboardInterrupt,
                        sending (register_request config username pin) w)
                      = (Raise KeyboardInterrupt, w''))).
  { eexists. split; [ | split; [ | split; [ | right; reflexivity]]]; reflexivity. }
  destruct (net _ _) as [response | [cls msg | ]];
    [ | intros _; apply Hfalse; reflexivity | intros _; exact Hraise].
  destruct (Response.status_code response =? 200);
    [ | intros _; apply Hfalse; reflexivity].
  destruct (Response.json response) as [data | [cls msg | ]];
    [ | intros _; apply Hfalse; reflexivity | intros _; exact Hraise].
  destruct data; try (intros _; apply Hfalse; reflexivity).
  destruct (truthy (dict_get d "token")); [discriminate | ].
  intros _; apply Hfalse; reflexivity.
Qed.

Lemma register_user_result (net : network) (config : Config.t) (username pin : pyval)
  (w : World) :
  match registered_token
          (net (List.length (sent w)) (register_request config username pin)) with
  | Some token =>
      (register_user net config username pin w).1 = Ok true
      /\ jwt_token (register_user net config username pin w).2 = token
  | None => (register_user net config username pin w).1 <> Ok true
  end.
Proof.
  destruct (registered_token _) as [token | ] eqn:Ht.
  - destruct (register_user_true net config username pin w token Ht) as [_ ->].
    split; reflexivity.
  - destruct (register_user_not_true net config username pin w Ht)
      as (w' & _ & _ & _ & [-> | ->]); discriminate.
Qed.

(** ** main: authentication *)

Lemma main_failed_authentication (net : network) (args : Args.t)
  (env : gmap string string) (config : Config.t) :
  load_config env = Ok config ->
  truthy (username_of args config) = true ->
  truthy (pin_of args config) = true ->
  (register_user net config (username_of args config) (pin_of args config) initial).1
  <> Ok true ->
  exists w' : World,
    main net args env initial = (Ok 1, w')
    /\ trace w' = []
    /\ sent w' = [register_request config (username_of args config) (pin_of args config)]
    /\ closed w' = true.
Proof.
  intros Hc Hu Hp Hauth.
  rewrite (main_run net args env config initial Hc Hu Hp).
  rewrite main_guard_run, main_try_run.
  pose proof (register_user_result net config (username_of args config)
                (pin_of args config) initial) as Hinit.
  destruct (registered_token _) as [token | ] eqn:Ht in Hinit;
    [destruct Hinit as [Hinit _]; contradiction | clear Hinit].
  change (sent initial) with
    (sent (banner config (username_of args config) [choice_name (selected args)]
             (with_token PNone initial))) in Ht.
  destruct (register_user_not_true net config _ _ _ Ht)
    as (w' & Hsent & Htrace & _ & [-> | ->]); eexists;
    (split; [reflexivity | ]); worlds; rewrite Hsent, Htrace;
    repeat split; reflexivity.
Qed.

(** C7: when register_user does not return True (the answer is 401, say, or
    the client raises), the process ends with status 1; no probe has been
    entered, the request of the registration is the only one the client was
    given, and the client is closed. *)
Theorem failed_authentication_exit (net : network) (args : Args.t)
  (env : gmap string string) (config : Config.t) :
  load_config env = Ok config ->
  truthy (username_of args config) = true ->
  truthy (pin_of args config) = true ->
  (register_user net config (username_of args config) (pin_of args config) initial).1
  <> Ok true ->
  let p := script net args env in
  exit_code p = 1
  /\ trace (world p) = []
  /\ sent (world p)
     = [register_request config (username_of args config) (pin_of args config)]
  /\ closed (world p) = true.
Proof.
  intros Hc Hu Hp Hauth p. subst p. unfold script.
  destruct (main_failed_authentication net args env config Hc Hu Hp Hauth)
    as (w' & -> & Htrace & Hsent & Hclosed).
  worlds. auto.
Qed.

Lemma failed_authentication_exit_witness :
  let p := script unauthorized alice ∅ in
  exit_code p = 1
  /\ trace (world p) = []
  /\ sent (world p)
     = [register_request config_default (PStr "alice") (PStr "1234")]
  /\ closed (world p) = true.
Proof.
  apply (failed_authentication_exit unauthorized alice ∅ config_default);
    [reflexivity | reflexivity | reflexivity | vm_compute; discriminate].
Defined.

(** C8: with --token-only, when register_user returns True, the process
    prints the token that the registration stored (after the line
    "JWT Token:") and ends with status 0; no probe has been entered and the
    request of the registration is the only one the client was given. *)
Theorem token_only_exit (net : network) (args : Args.t) (env : gmap string string)
  (config : Config.t) :
  load_config env = Ok config ->
  truthy (username_of args config) = true ->
  truthy (pin_of args config) = true ->
  Args.token_only args = true ->
  (register_user net config (username_of args config) (pin_of args config) initial).1
  = Ok true ->
  let p := script net args env in
  exit_code p = 0
  /\ trace (world p) = []
  /\ sent (world p)
     = [register_request config (username_of args config) (pin_of args config)]
  /\ jwt_token (world p)
     = jwt_token (register_user net config (username_of args config)
                    (pin_of args config) initial).2
  /\ truthy (jwt_token (world p)) = true
  /\ (exists before : list text,
        stdout (world p)
        = before ++ [colored Colors.YELLOW [Lit NL; Lit "JWT Token:"];
                     token_line (jwt_token (world p));
                     token_only_line]).
Proof.
  intros Hc Hu Hp Honly Hauth p. subst p. unfold script.
  rewrite (main_run net args env config initial Hc Hu Hp).
  rewrite main_guard_run, main_try_run.
  pose proof (register_user_result net config (username_of args config)
                (pin_of args config) initial) as Hinit.
  destruct (registered_token _) as [token | ] eqn:Ht in Hinit;
    [destruct Hinit as [_ Htoken] | contradiction].
  change (sent initial) with
    (sent (banner config (username_of args config) [choice_name (selected args)]
             (with_token PNone initial))) in Ht.
  destruct (register_user_true net config _ _ _ token Ht) as [Htruthy ->].
  rewrite Honly. unfold token_shown. rewrite Honly, orb_true_r. worlds.
  rewrite Htoken.
  split; [reflexivity | split; [reflexivity | split; [reflexivity | ]]].
  split; [reflexivity | split; [exact Htruthy | ]].
  match goal with |- exists before, ?l = _ => exists (take 8 l) end. reflexivity.
Qed.

Lemma token_only_exit_witness :
  let p := script healthy alice_token_only ∅ in
  exit_code p = 0
  /\ trace (world p) = []
  /\ sent (world p)
     = [register_request config_default (PStr "alice") (PStr "1234")]
  /\ jwt_token (world p) = PStr "abc"
  /\ truthy (jwt_token (world p)) = true
  /\ (exists before : list text,
        stdout (world p)
        = before ++ [colored Colors.YELLOW [Lit NL; Lit "JWT Token:"];
                     token_line (jwt_token (world p));
                     token_only_line]).
Proof.
  apply (token_only_exit healthy alice_token_only ∅ config_default); reflexivity.
Defined.

(** ** main: the exit code *)

Lemma probe_cases (net : network) (c : choice) (config : Config.t) (verbose : bool)
  (w : World) :
  exists w' : World,
    stdout w' = stdout w /\ trace w' = trace w
    /\ ((exists result : ProbeResult.t, probe net c config verbose w = (Ok result, w'))
        \/ probe net c config verbose w = (Raise KeyboardInterrupt, w')).
Proof.
  destruct (gated c config) eqn:Hg.
  - destruct (probe_gated net c config verbose w Hg) as [label ->].
    exists w. eauto.
  - rewrite probe_request_sent by assumption.
    exists (sending (probe_request c config (jwt_token w)) w).
    split; [reflexivity | split; [reflexivity | ]].
    destruct (net _ _) as [response | [cls msg | ]]; eauto.
    destruct (Response.status_code response =? 200); eauto.
    destruct (Response.json response) as [data | [cls msg | ]]; eauto.
Qed.

Lemma token_shown_trace (args : Args.t) (w : World) :
  trace (token_shown args w) = trace w.
Proof. unfold token_shown. destruct (_ || _); reflexivity. Qed.

Lemma reported_trace (provider : string) (verbose : bool) (result : ProbeResult.t)
  (w : World) :
  trace (reported provider verbose result w) = trace w.
Proof. unfold reported. destruct (_ && _); reflexivity. Qed.

Lemma summary_code_single (name : string) (result : ProbeResult.t) :
  summary_code [(name, result)] = if ProbeResult.success result then 0 else 1.
Proof.
  unfold summary_code, count_passed. cbn. destruct (ProbeResult.success result); reflexivity.
Qed.

Lemma summary_code_range (results : list (string * ProbeResult.t)) :
  summary_code results = 0 \/ summary_code results = 1.
Proof. unfold summary_code. destruct (_ =? 0); auto. Qed.

Lemma early_line_length (line : text) : early_line line -> List.length line <> 4%nat.
Proof.
  intros [-> | [-> | [-> | [-> | [msg ->]]]]]; cbn [List.length]; discriminate.
Qed.

Lemma ended_early_last (p : Process) (before : list text) (line : text) :
  stdout (world p) = before ++ [line] -> early_line line -> ended_early p.
Proof.
  intros Hout Hline. right. exists line. rewrite Hout, last_snoc. auto.
Qed.

Lemma not_ended_early (p : Process) (before : list text) (line : text) :
  traceback p = None ->
  stdout (world p) = before ++ [line] ->
  List.length line = 4%nat ->
  ~ ended_early p.
Proof.
  intros Htb Hout Hlen [Hne | (line' & Hlast & Hearly)]; [contradiction | ].
  rewrite Hout, last_snoc in Hlast. injection Hlast as <-.
  exact (early_line_length line Hearly Hlen).
Qed.

(** The three ways a run of the script ends. *)
Lemma script_cases (net : network) (args : Args.t) (env : gmap string string) :
  let p := script net args env in
  (ended_early p /\ exit_code p = 1)
  \/ (~ ended_early p /\ exit_code p = 0 /\ trace (world p) = [])
  \/ (~ ended_early p
      /\ exists (name : string) (result : ProbeResult.t),
           trace (world p) = [Invoked name; Produced name result]
           /\ exit_code p = if ProbeResult.success result then 0 else 1).
Proof.
  intros p. subst p. unfold script.
  destruct (load_config env) as [config | e] eqn:Hc.
  2:{ rewrite (main_config_error net args env e initial Hc).
      rewrite (load_config_raises env e Hc). left. split; [ | reflexivity].
      left. discriminate. }
  destruct (truthy (username_of args config)) eqn:Hu.
  2:{ rewrite (main_missing_username net args env config initial Hc Hu).
      left. split; [ | reflexivity].
      apply (ended_early_last _ [] username_required); [reflexivity | ].
      left. reflexivity. }
  destruct (truthy (pin_of args config)) eqn:Hp.
  2:{ rewrite (main_missing_pin net args env config initial Hc Hu Hp).
      left. split; [ | reflexivity].
      apply (ended_early_last _ [] pin_required); [reflexivity | ].
      right. left. reflexivity. }
  rewrite (main_run net args env config initial Hc Hu Hp).
  rewrite main_guard_run, main_try_run.
  set (w0 := banner config (username_of args config) [choice_name (selected args)]
               (with_token PNone initial)).
  assert (Htrace0 : trace w0 = []) by reflexivity.
  destruct (registered_token
              (net (List.length (sent w0))
                 (register_request config (username_of args config) (pin_of args config))))
    as [token | ] eqn:Ht.
  2:{ destruct (register_user_not_true net config _ _ _ Ht)
        as (w1 & _ & _ & _ & [-> | ->]); left; (split; [ | reflexivity]).
      - apply (ended_early_last _ (stdout w1) registration_failed); [reflexivity | ].
        right. right. left. reflexivity.
      - apply (ended_early_last _ (stdout w1) interrupted); [reflexivity | ].
        right. right. right. left. reflexivity. }
  destruct (register_user_true net config _ _ _ token Ht) as [_ ->].
  set (w1 := printing _ (with_token token _)).
  assert (Htrace1 : trace (token_shown args w1) = [])
    by (rewrite token_shown_trace; exact Htrace0).
  destruct (Args.token_only args).
  { right. left. split; [ | split; [reflexivity | exact Htrace1]].
    apply (not_ended_early _ (stdout (token_shown args w1)) token_only_line);
      reflexivity. }
  rewrite run_health_checks_single.
  set (w2 := announced _ _).
  assert (Htrace2 : trace w2 = [Invoked (choice_name (selected args))])
    by (unfold w2, announced; worlds; rewrite Htrace1; reflexivity).
  destruct (probe_cases net (selected args) config (Args.verbose args) w2)
    as (w3 & _ & Htrace3 & [[result ->] | ->]).
  - right. right. split.
    + eapply (not_ended_early _ _ (failed_line [(choice_name (selected args), result)]));
        reflexivity.
    + exists (choice_name (selected args)), result. split.
      * worlds. unfold summary. worlds. rewrite reported_trace. worlds.
        rewrite Htrace3, Htrace2. reflexivity.
      * worlds. apply summary_code_single.
  - left. split; [ | reflexivity].
    apply (ended_early_last _ (stdout w3) interrupted); [reflexivity | ].
    right. right. right. left. reflexivity.
Qed.

(** C1: the exit status of the process is 0 or 1.  It is 0 exactly when the
    run did not stop early and every probe that was entered handed back a
    successful result; so it is 1 when a probe failed or was cut short, and 1
    when the run stopped early: on a missing credential, a failed
    registration, KeyboardInterrupt or an exception that reached the handlers
    of [main] (and also when load_config raised).  In particular it is 1
    when no username or no PIN is supplied and when register_user does not
    return True, and the two handlers turn whatever the guarded body raises
    into the exit code 1. *)
Theorem exit_code_policy (net : network) (args : Args.t) (env : gmap string string) :
  let p := script net args env in
  (exit_code p = 0 \/ exit_code p = 1)
  /\ (exit_code p = 0 <-> ~ ended_early p /\ probes_passed (trace (world p)) = true)
  /\ (probes_passed (trace (world p)) = false -> exit_code p = 1)
  /\ (ended_early p -> exit_code p = 1)
  /\ ((missing (Args.username args) /\ missing (env !! "DEFAULT_USERNAME"))
      \/ (missing (Args.pin args) /\ missing (env !! "DEFAULT_PIN")) ->
      exit_code p = 1)
  /\ (forall config : Config.t,
        load_config env = Ok config ->
        truthy (username_of args config) = true ->
        truthy (pin_of args config) = true ->
        (register_user net config (username_of args config) (pin_of args config)
           initial).1 <> Ok true ->
        exit_code p = 1)
  /\ (forall (body : M Z) (w w' : World),
        body w = (Raise KeyboardInterrupt, w') ->
        main_guard body w = (Ok 1, closing (printing interrupted w')))
  /\ (forall (body : M Z) (w w' : World) (cls msg : string),
        body w = (Raise (PyException cls msg), w') ->
        main_guard body w = (Ok 1, closing (printing (unexpected_error msg) w'))).
Proof.
  intros p.
  assert (Hguard :
    ((missing (Args.username args) /\ missing (env !! "DEFAULT_USERNAME"))
      \/ (missing (Args.pin args) /\ missing (env !! "DEFAULT_PIN")) ->
      exit_code p = 1)
    /\ (forall config : Config.t,
        load_config env = Ok config ->
        truthy (username_of args config) = true ->
        truthy (pin_of args config) = true ->
        (register_user net config (username_of args config) (pin_of args config)
           initial).1 <> Ok true ->
        exit_code p = 1)
    /\ (forall (body : M Z) (w w' : World),
        body w = (Raise KeyboardInterrupt, w') ->
        main_guard body w = (Ok 1, closing (printing interrupted w')))
    /\ (forall (body : M Z) (w w' : World) (cls msg : string),
        body w = (Raise (PyException cls msg), w') ->
        main_guard body w = (Ok 1, closing (printing (unexpected_error msg) w')))).
  { split; [ | split; [ | split; intros; rewrite main_guard_run; rewrite H; reflexivity]].
    - intros Hmiss. subst p. unfold script.
      destruct (load_config env) as [config | e] eqn:Hc.
      + destruct (main_missing_credentials net args env config initial Hc Hmiss)
          as [-> | ->]; reflexivity.
      + rewrite (main_config_error net args env e initial Hc).
        rewrite (load_config_raises env e Hc). reflexivity.
    - intros config Hc Hu Hp Hauth. subst p. unfold script.
      destruct (main_failed_authentication net args env config Hc Hu Hp Hauth)
        as (w' & -> & _). reflexivity. }
  destruct (script_cases net args env)
    as [[Hearly Hcode] | [(Hnot & Hcode & Htrace) | (Hnot & name & result & Htrace & Hcode)]];
    fold p in Hcode.
  - fold p in Hearly. rewrite Hcode in Hguard |- *.
    split; [auto | split; [ | split; [reflexivity | split; [reflexivity | exact Hguard]]]].
    split; [discriminate | intros [Hnot _]; contradiction].
  - fold p in Hnot, Htrace. rewrite Hcode in Hguard |- *. rewrite Htrace.
    split; [auto | split; [ | split; [discriminate | split; [ | exact Hguard]]]].
    + split; [intros _; split; [exact Hnot | reflexivity] | reflexivity].
    + intros Hearly. contradiction.
  - fold p in Hnot, Htrace. rewrite Hcode in Hguard |- *. rewrite Htrace.
    cbn [probes_passed].
    rewrite andb_true_r.
    destruct (ProbeResult.success result);
      (split; [auto | split; [ | split; [ | split; [ | exact Hguard]]]]).
    + split; [intros _; split; [exact Hnot | reflexivity] | reflexivity].
    + discriminate.
    + intros Hearly. contradiction.
    + split; [discriminate | intros [_ H]; discriminate].
    + reflexivity.
    + reflexivity.
Qed.

(** ** main: exceptions *)

(** C9, as stated, fails: with PROXY_TIMEOUT=abc in the environment,
    load_config raises ValueError before the [try] statement of [main] is
    entered, and the exception leaves [main]. *)
Lemma malformed_timeout_leaves_main :
  ~ no_exception_leaves_main healthy alice (<["PROXY_TIMEOUT" := "abc"]> ∅).
Proof.
  intros (code & w & Hrun).
  rewrite (main_config_error healthy alice (<["PROXY_TIMEOUT" := "abc"]> ∅)
             (PyException "ValueError" "invalid literal for int() with base 10: 'abc'")
             initial) in Hrun by reflexivity.
  discriminate.
Qed.

Lemma main_try_code (net : network) (args : Args.t) (config : Config.t)
  (username pin : pyval) (providers : list string) (w w' : World) (code : Z) :
  main_try net args config username pin providers w = (Ok code, w') ->
  code = 0 \/ code = 1.
Proof.
  rewrite main_try_run.
  destruct (register_user _ _ _ _ _) as [[[ | ] | e] w1]; [ | intros [= <- _]; auto | discriminate].
  destruct (Args.token_only args); [intros [= <- _]; auto | ].
  destruct (run_health_checks _ _ _ _ _) as [[results | e] w2]; [ | discriminate].
  intros [= <- _]. apply summary_code_range.
Qed.

(** C9, amended: no exception leaves the [try] statement of [main], which is
    entered once the configuration is loaded and the checker is built:
    whatever the network does, the statement hands back the exit code 0 or 1
    and the client is closed on the way out.  Whatever its body raises,
    KeyboardInterrupt or an instance of Exception, is caught by the handlers
    of [main], reported on a line of its own and turned into the exit code 1,
    after which the client is closed. *)
Theorem guarded_run_returns (net : network) (args : Args.t) (config : Config.t)
  (username pin : pyval) (providers : list string) (w : World) :
  (exists (code : Z) (w' : World),
      main_guard (main_try net args config username pin providers) w = (Ok code, w')
      /\ (code = 0 \/ code = 1)
      /\ closed w' = true)
  /\ (forall (body : M Z) (w0 w1 : World) (e : pyexc),
        body w0 = (Raise e, w1) ->
        exists line : text,
          main_guard body w0 = (Ok 1, closing (printing line w1))
          /\ (e = KeyboardInterrupt -> line = interrupted)
          /\ (forall cls msg : string, e = PyException cls msg -> line = unexpected_error msg)).
Proof.
  split.
  - rewrite main_guard_run.
    destruct (main_try _ _ _ _ _ _ _) as [[code | [cls msg | ]] w'] eqn:Hrun;
      eexists _, _; (split; [reflexivity | split; [ | reflexivity]]); auto.
    exact (main_try_code _ _ _ _ _ _ _ _ _ Hrun).
  - intros body w0 w1 e Hbody. rewrite main_guard_run, Hbody.
    destruct e as [cls msg | ].
    + exists (unexpected_error msg). split; [reflexivity | split; [discriminate | ]].
      intros cls' msg' [= _ <-]. reflexivity.
    + exists interrupted. split; [reflexivity | split; [reflexivity | discriminate]].
Qed.

(** * Further properties of the code *)

(** ** The probes and the session *)

Lemma probe_frame (net : network) (c : choice) (config : Config.t) (verbose : bool)
  (w : World) :
  let w' := (probe net c config verbose w).2 in
  jwt_token w' = jwt_token w
  /\ stdout w' = stdout w
  /\ closed w' = closed w
  /\ trace w' = trace w
  /\ sent w' = sent w ++ (if gated c config then []
                          else [probe_request c config (jwt_token w)]).
Proof.
  destruct (gated c config) eqn:Hg.
  - destruct (probe_gated net c config verbose w Hg) as [label ->].
    cbn [snd]. rewrite app_nil_r. auto.
  - rewrite probe_request_sent by assumption.
    destruct (net _ _) as [response | [cls msg | ]];
      [ | repeat split; reflexivity ..].
    destruct (Response.status_code response =? 200); [ | repeat split; reflexivity].
    destruct (Response.json response) as [data | [cls msg | ]]; repeat split; reflexivity.
Qed.

Lemma gated_key (c : choice) (config : Config.t) :
  gated c config = true <-> key_missing c config.
Proof.
  unfold key_missing.
  assert (Hnc : forall (key : option string) (placeholder : string),
             not_configured key placeholder = true
             <-> key = None \/ key = Some EmptyString \/ key = Some placeholder).
  { intros key placeholder. unfold not_configured. rewrite orb_true_iff.
    rewrite bool_decide_eq_true. destruct key as [k | ]; simpl.
    - rewrite negb_true_iff, negb_false_iff, String.eqb_eq.
      split; [intros [-> | H]; auto | intros [H | [[= ->] | H]]; auto; discriminate].
    - split; auto. }
  destruct c; simpl.
  - rewrite Hnc. split.
    + intros H. eexists _, _. split; [reflexivity | exact H].
    + intros (key & placeholder & [= <- <-] & H). exact H.
  - rewrite Hnc. split.
    + intros H. eexists _, _. split; [reflexivity | exact H].
    + intros (key & placeholder & [= <- <-] & H). exact H.
  - split; [discriminate | intros (key & placeholder & H & _); discriminate].
Qed.

(** X1: a probe reads the session and never changes it: the token, the
    printed lines, the state of the client and the trace are as before.  It
    gives the client no request when its API key is absent, empty or the
    placeholder, and exactly one request otherwise, whatever the network
    answers; the opensource probe, which has no key, always sends one. *)
Theorem probe_sends_at_most_once (net : network) (c : choice) (config : Config.t)
  (verbose : bool) (w : World) :
  let w' := (probe net c config verbose w).2 in
  jwt_token w' = jwt_token w
  /\ stdout w' = stdout w
  /\ closed w' = closed w
  /\ trace w' = trace w
  /\ (key_missing c config -> sent w' = sent w)
  /\ (~ key_missing c config ->
      sent w' = sent w ++ [probe_request c config (jwt_token w)]).
Proof.
  intros w'. subst w'.
  destruct (probe_frame net c config verbose w) as (Hj & Ho & Hc & Ht & Hs).
  split; [exact Hj | split; [exact Ho | split; [exact Hc | split; [exact Ht | ]]]].
  rewrite Hs. split; intros Hkey.
  - apply gated_key in Hkey. rewrite Hkey. apply app_nil_r.
  - destruct (gated c config) eqn:Hg; [ | reflexivity].
    apply gated_key in Hg. contradiction.
Qed.

Lemma probe_result_shape (net : network) (c : choice) (config : Config.t) (verbose : bool)
  (w : World) (result : ProbeResult.t) :
  (probe net c config verbose w).1 = Ok result ->
  ProbeResult.provider result = choice_name c
  /\ (ProbeResult.success result = true <-> ProbeResult.error result = PNone)
  /\ (ProbeResult.success result = false ->
      ProbeResult.response_data result = PNone
      /\ ProbeResult.full_response result = None
      /\ exists text : string, ProbeResult.error result = PStr text)
  /\ (ProbeResult.full_response result
      = if verbose && ProbeResult.success result
        then Some (ProbeResult.response_data result) else None).
Proof.
  assert (Hfail : forall (status : Z) (time : pyval) (text : string),
    let r := ProbeResult.mk (choice_name c) status false time (PStr text) PNone None in
    ProbeResult.provider r = choice_name c
    /\ (ProbeResult.success r = true <-> ProbeResult.error r = PNone)
    /\ (ProbeResult.success r = false ->
        ProbeResult.response_data r = PNone
        /\ ProbeResult.full_response r = None
        /\ exists text' : string, ProbeResult.error r = PStr text')
    /\ (ProbeResult.full_response r
        = if verbose && ProbeResult.success r
          then Some (ProbeResult.response_data r) else None)).
  { intros status time text. cbn. rewrite andb_false_r.
    repeat split; try discriminate; eauto. }
  destruct (gated c config) eqn:Hg.
  - destruct (probe_gated net c config verbose w Hg) as [label ->].
    intros [= <-]. apply Hfail.
  - rewrite probe_request_sent by assumption.
    destruct (net _ _) as [response | [cls msg | ]];
      [ | intros [= <-]; apply Hfail | discriminate].
    destruct (Response.status_code response =? 200);
      [ | intros [= <-]; apply Hfail].
    destruct (Response.json response) as [data | [cls msg | ]];
      [ | intros [= <-]; apply Hfail | discriminate].
    intros [= <-]. cbn. rewrite andb_true_r.
    repeat split; try discriminate; destruct verbose; reflexivity.
Qed.

(** X2: the result that a probe hands back is named after its provider; its
    error is None exactly when it is a success, and a failure carries a text
    as its error, no response data and no full response.  The key
    full_response is there exactly for a success under [verbose], and then it
    holds the response data. *)
Theorem probe_result_fields (net : network) (c : choice) (config : Config.t)
  (verbose : bool) (w : World) :
  match (probe net c config verbose w).1 with
  | Ok result =>
      ProbeResult.provider result = choice_name c
      /\ (ProbeResult.success result = true <-> ProbeResult.error result = PNone)
      /\ (ProbeResult.success result = false ->
          ProbeResult.response_data result = PNone
          /\ ProbeResult.full_response result = None
          /\ exists text : string, ProbeResult.error result = PStr text)
      /\ (ProbeResult.full_response result
          = if verbose && ProbeResult.success result
            then Some (ProbeResult.response_data result) else None)
  | Raise e => e = KeyboardInterrupt
  end.
Proof.
  destruct (probe net c config verbose w).1 as [result | e] eqn:Hrun.
  - exact (probe_result_shape net c config verbose w result Hrun).
  - destruct (probe_cases net c config verbose w) as (w' & _ & _ & [[result H] | H]);
      rewrite H in Hrun; cbn in Hrun; [discriminate | ].
    injection Hrun as <-. reflexivity.
Qed.

(** ** Registration and the session *)

(** X3: register_user gives the client exactly one request, the POST of the
    two credentials to /auth/register without headers, whatever the answer;
    it leaves the client open and the trace alone.  When it returns it has
    printed exactly one line, and when KeyboardInterrupt cuts it short it has
    printed none.  The stored token changes only when the answer is a 200
    whose body decodes to an object, and then it becomes the token field of
    it (None when the field is not there). *)
Theorem register_user_sends_once (net : network) (config : Config.t) (username pin : pyval)
  (w : World) :
  let answer := net (List.length (sent w)) (register_request config username pin) in
  let run := register_user net config username pin w in
  sent run.2 = sent w ++ [Request.mk (Config.PROXY_BASE_URL config +:+ "/auth/register") []
                             (PDict [("username", username); ("pin", pin)])]
  /\ closed run.2 = closed w
  /\ trace run.2 = trace w
  /\ match run.1 with
     | Ok _ => exists line : text, stdout run.2 = stdout w ++ [line]
     | Raise e => e = KeyboardInterrupt /\ stdout run.2 = stdout w
     end
  /\ ((exists (response : Response.t) (d : list (string * pyval)),
         answer = Responds response
         /\ Response.status_code response = 200
         /\ Response.json response = Ok (PDict d)
         /\ jwt_token run.2 = dict_get d "token")
      \/ jwt_token run.2 = jwt_token w).
Proof.
  intros answer run. subst answer run. rewrite register_user_run. cbv zeta.
  assert (Hkept : forall (b : bool) (line : text),
    let run := (Ok b, printing line (sending (register_request config username pin) w)) in
    sent run.2 = sent w ++ [register_request config username pin]
    /\ closed run.2 = closed w
    /\ trace run.2 = trace w
    /\ (exists line' : text, stdout run.2 = stdout w ++ [line'])
    /\ ((exists (response : Response.t) (d : list (string * pyval)),
           net (List.length (sent w)) (register_request config username pin)
           = Responds response
           /\ Response.status_code response = 200
           /\ Response.json response = Ok (PDict d)
           /\ jwt_token run.2 = dict_get d "token")
        \/ jwt_token run.2 = jwt_token w)).
  { intros b line. cbn.
    split; [reflexivity | split; [reflexivity | split; [reflexivity | ]]].
    split; [eauto | right; reflexivity]. }
  assert (Hcut :
    let run := (@Raise bool KeyboardInterrupt,
                sending (register_request config username pin) w) in
    sent run.2 = sent w ++ [register_request config username pin]
    /\ closed run.2 = closed w
    /\ trace run.2 = trace w
    /\ (KeyboardInterrupt = KeyboardInterrupt /\ stdout run.2 = stdout w)
    /\ ((exists (response : Response.t) (d : list (string * pyval)),
           net (List.length (sent w)) (register_request config username pin)
           = Responds response
           /\ Response.status_code response = 200
           /\ Response.json response = Ok (PDict d)
           /\ jwt_token run.2 = dict_get d "token")
        \/ jwt_token run.2 = jwt_token w)).
  { cbn.
    split; [reflexivity | split; [reflexivity | split; [reflexivity | ]]].
    split; [split; reflexivity | right; reflexivity]. }
  destruct (net _ _) as [response | [cls msg | ]]; [ | apply Hkept | exact Hcut].
  destruct (Response.status_code response =? 200) eqn:Hs; [ | apply Hkept].
  apply Z.eqb_eq in Hs.
  destruct (Response.json response) as [data | [cls msg | ]] eqn:Hj;
    [ | apply Hkept | exact Hcut].
  destruct data as [ | b | z | f | s | l | d]; try apply Hkept.
  destruct (truthy (dict_get d "token")); cbn [fst snd];
    (split; [reflexivity | split; [reflexivity | split; [reflexivity | ]]]);
    (split; [eexists; reflexivity | left; exists response, d; auto]).
Qed.

(** ** run_health_checks over any list of providers *)

Lemma dict_lookup_set_eq {A : Type} (k : string) (v : A) (d : list (string * A)) :
  dict_lookup k (dict_set k v d) = Some v.
Proof.
  induction d as [ | [k' v'] d IH]; cbn.
  - rewrite String.eqb_refl. reflexivity.
  - destruct (String.eqb k' k) eqn:Hk; cbn.
    + rewrite String.eqb_refl. reflexivity.
    + rewrite Hk. exact IH.
Qed.

Lemma dict_lookup_set_ne {A : Type} (k k' : string) (v : A) (d : list (string * A)) :
  k <> k' -> dict_lookup k' (dict_set k v d) = dict_lookup k' d.
Proof.
  intros Hne. induction d as [ | [k0 v0] d IH]; cbn.
  - apply String.eqb_neq in Hne. rewrite Hne. reflexivity.
  - destruct (String.eqb k0 k) eqn:Hk; cbn.
    + apply String.eqb_eq in Hk. subst k0.
      apply String.eqb_neq in Hne. rewrite Hne. reflexivity.
    + destruct (String.eqb k0 k'); [reflexivity | exact IH].
Qed.

Lemma loop_known (net : network) (config : Config.t) (c : choice) (rest : list string)
  (verbose : bool) (acc : list (string * ProbeResult.t)) (w : World) :
  run_health_checks_loop net config (choice_name c :: rest) verbose acc w =
  match probe net c config verbose (announced (choice_name c) w) with
  | (Ok result, w1) =>
      run_health_checks_loop net config rest verbose
        (dict_set (choice_name c) result acc)
        (reported (choice_name c) verbose result
           (logging (Produced (choice_name c) result) w1))
  | (Raise e, w1) => (Raise e, w1)
  end.
Proof.
  cbn [run_health_checks_loop].
  rewrite provider_tests_lookup. unfold call_probe, announced, reported, logging, printing.
  run.
  destruct (probe net c config verbose _) as [[result | e] w1]; [ | reflexivity].
  destruct (ProbeResult.success result), verbose; cbn [andb];
    try reflexivity;
    destruct (truthy (default PNone (ProbeResult.full_response result))); reflexivity.
Qed.

Lemma loop_unknown (net : network) (config : Config.t) (name : string)
  (rest : list string) (verbose : bool) (acc : list (string * ProbeResult.t)) (w : World) :
  name <> "opensource" -> name <> "openai" -> name <> "anthropic" ->
  run_health_checks_loop net config (name :: rest) verbose acc w =
  run_health_checks_loop net config rest verbose acc w.
Proof.
  intros H1 H2 H3. cbn [run_health_checks_loop].
  assert (Hnone : dict_lookup name (provider_tests net config) = None).
  { unfold provider_tests. cbn [dict_lookup].
    rewrite (proj2 (String.eqb_neq "opensource" name)) by congruence.
    rewrite (proj2 (String.eqb_neq "openai" name)) by congruence.
    rewrite (proj2 (String.eqb_neq "anthropic" name)) by congruence.
    reflexivity. }
  rewrite Hnone. reflexivity.
Qed.

(** X4: a name that is not one of the three providers is passed over: a list
    of such names gives the empty mapping of results and leaves the world as
    it was (nothing printed, nothing sent, no probe entered). *)
Theorem unknown_providers_are_skipped (net : network) (config : Config.t)
  (providers : list string) (verbose : bool) (w : World) :
  Forall (fun name => name <> "opensource" /\ name <> "openai" /\ name <> "anthropic")
    providers ->
  run_health_checks net config providers verbose w = (Ok [], w).
Proof.
  unfold run_health_checks. induction 1 as [ | name rest (H1 & H2 & H3) _ IH].
  - reflexivity.
  - rewrite loop_unknown by assumption. exact IH.
Qed.

Lemma unknown_providers_are_skipped_witness :
  run_health_checks healthy config_default ["gemini"; "OpenAI"] true initial
  = (Ok [], initial).
Proof.
  apply (unknown_providers_are_skipped healthy config_default ["gemini"; "OpenAI"] true
           initial).
  repeat constructor; discriminate.
Defined.

Lemma invocations_app (tr1 tr2 : list event) :
  invocations (tr1 ++ tr2) = invocations tr1 ++ invocations tr2.
Proof. unfold invocations. apply flat_map_app. Qed.

Lemma loop_visits_all (net : network) (config : Config.t) (verbose : bool)
  (cs : list choice) :
  forall (acc : list (string * ProbeResult.t)) (w : World),
    (forall (name : string) (r : ProbeResult.t),
        dict_lookup name acc = Some r ->
        ProbeResult.provider r = name /\ In (Produced name r) (trace w)) ->
    match run_health_checks_loop net config (map choice_name cs) verbose acc w with
    | (Ok results, w') =>
        invocations (trace w') = invocations (trace w) ++ map choice_name cs
        /\ (forall name : string,
              is_Some (dict_lookup name results)
              <-> is_Some (dict_lookup name acc) \/ In name (map choice_name cs))
        /\ (forall (name : string) (r : ProbeResult.t),
              dict_lookup name results = Some r ->
              ProbeResult.provider r = name /\ In (Produced name r) (trace w'))
    | (Raise e, _) => e = KeyboardInterrupt
    end.
Proof.
  induction cs as [ | c cs IH]; intros acc w Hacc.
  - cbn. rewrite app_nil_r. split; [reflexivity | split; [ | exact Hacc]].
    intros name. tauto.
  - cbn [map]. rewrite loop_known.
    pose proof (probe_result_shape net c config verbose (announced (choice_name c) w))
      as Hshape.
    destruct (probe_cases net c config verbose (announced (choice_name c) w))
      as (w1 & _ & Htrace & [[result Hrun] | Hrun]); rewrite Hrun; [ | reflexivity].
    rewrite Hrun in Hshape. destruct (Hshape result eq_refl) as [Hname _].
    set (w2 := reported (choice_name c) verbose result
                 (logging (Produced (choice_name c) result) w1)).
    assert (Htrace2 : trace w2
                      = trace w ++ [Invoked (choice_name c);
                                    Produced (choice_name c) result]).
    { unfold w2. rewrite reported_trace. cbn [logging trace]. rewrite Htrace.
      unfold announced. cbn [logging printing trace]. rewrite <- app_assoc. reflexivity. }
    specialize (IH (dict_set (choice_name c) result acc) w2).
    destruct (run_health_checks_loop net config (map choice_name cs) verbose _ w2)
      as [[results | e] w'].
    + destruct IH as (Hinv & Hdom & Hres).
      { intros name r Hlook. rewrite Htrace2.
        destruct (String.eqb_spec (choice_name c) name) as [<- | Hne].
        - rewrite dict_lookup_set_eq in Hlook. injection Hlook as <-.
          split; [exact Hname | ]. apply in_or_app. right. right. left. reflexivity.
        - rewrite dict_lookup_set_ne in Hlook by assumption.
          destruct (Hacc name r Hlook) as [Hp Hin].
          split; [exact Hp | apply in_or_app; left; exact Hin]. }
      split; [ | split; [ | exact Hres]].
      * rewrite Hinv, Htrace2, invocations_app. cbn. rewrite <- app_assoc. reflexivity.
      * intros name. rewrite Hdom. cbn [In].
        destruct (String.eqb_spec (choice_name c) name) as [<- | Hne].
        -- rewrite dict_lookup_set_eq. split; [auto | intros _; left; eauto].
        -- rewrite dict_lookup_set_ne by assumption. tauto.
    + apply IH. intros name r Hlook. rewrite Htrace2.
      destruct (String.eqb_spec (choice_name c) name) as [<- | Hne].
      * rewrite dict_lookup_set_eq in Hlook. injection Hlook as <-.
        split; [exact Hname | ]. apply in_or_app. right. right. left. reflexivity.
      * rewrite dict_lookup_set_ne in Hlook by assumption.
        destruct (Hacc name r Hlook) as [Hp Hin].
        split; [exact Hp | apply in_or_app; left; exact Hin].
Qed.

(** X5: run_health_checks enters the probe of every provider of its list, in
    the order of the list and whatever the earlier probes handed back: a
    failure does not stop the ones after it.  The mapping it returns has an
    entry exactly for the providers of the list, and each entry is a result
    that the probe of that provider produced during the call.  The only
    exception that can leave it is KeyboardInterrupt. *)
Theorem run_health_checks_visits_all (net : network) (config : Config.t)
  (cs : list choice) (verbose : bool) (w : World) :
  match run_health_checks net config (map choice_name cs) verbose w with
  | (Ok results, w') =>
      invocations (trace w') = invocations (trace w) ++ map choice_name cs
      /\ (forall name : string,
            is_Some (dict_lookup name results) <-> In name (map choice_name cs))
      /\ (forall (name : string) (r : ProbeResult.t),
            dict_lookup name results = Some r ->
            ProbeResult.provider r = name /\ In (Produced name r) (trace w'))
  | (Raise e, _) => e = KeyboardInterrupt
  end.
Proof.
  unfold run_health_checks.
  pose proof (loop_visits_all net config verbose cs [] w) as H.
  destruct (run_health_checks_loop net config (map choice_name cs) verbose [] w)
    as [[results | e] w'].
  - destruct H as (Hinv & Hdom & Hres); [intros name r; discriminate | ].
    split; [exact Hinv | split; [ | exact Hres]].
    intros name. rewrite Hdom. cbn. split; [intros [[x Hx] | H]; [discriminate | exact H] | auto].
  - apply H. intros name r. discriminate.
Qed.

(** ** The run as a whole *)

Lemma token_shown_frame (args : Args.t) (w : World) :
  sent (token_shown args w) = sent w
  /\ jwt_token (token_shown args w) = jwt_token w
  /\ closed (token_shown args w) = closed w.
Proof. unfold token_shown. destruct (_ || _); repeat split; reflexivity. Qed.

Lemma reported_frame (provider : string) (verbose : bool) (result : ProbeResult.t)
  (w : World) :
  sent (reported provider verbose result w) = sent w
  /\ jwt_token (reported provider verbose result w) = jwt_token w
  /\ closed (reported provider verbose result w) = closed w.
Proof. unfold reported. destruct (_ && _); repeat split; reflexivity. Qed.

Lemma summary_single (name : string) (result : ProbeResult.t) (w : World) :
  stdout (summary [(name, result)] w)
  = stdout (header "Summary" w) ++ summary_lines (ProbeResult.success result).
Proof.
  unfold summary, summary_lines, failed_line, count_passed.
  cbn [printing stdout List.filter List.length snd].
  rewrite <- !app_assoc. destruct (ProbeResult.success result); reflexivity.
Qed.

Lemma closing_summary (results : list (string * ProbeResult.t)) (w : World) :
  jwt_token (closing (summary results w)) = jwt_token w
  /\ sent (closing (summary results w)) = sent w
  /\ trace (closing (summary results w)) = trace w
  /\ stdout (closing (summary results w)) = stdout (summary results w).
Proof. repeat split; reflexivity. Qed.

(** How a run ends, with what it has sent, entered and printed. *)
Lemma script_shape (net : network) (args : Args.t) (env : gmap string string) :
  let p := script net args env in
  let name := choice_name (selected args) in
  (exit_code p = 1 /\ trace (world p) = [] /\ sent (world p) = []
   /\ closed (world p) = false)
  \/ exists config : Config.t,
       load_config env = Ok config
       /\ truthy (username_of args config) = true
       /\ truthy (pin_of args config) = true
       /\ closed (world p) = true
       /\ ((trace (world p) = []
            /\ sent (world p)
               = [register_request config (username_of args config) (pin_of args config)]
            /\ (exit_code p = 1 \/ (exit_code p = 0 /\ Args.token_only args = true)))
           \/ exists token : pyval,
                registered_token
                  (net 0%nat (register_request config (username_of args config)
                                (pin_of args config))) = Some token
                /\ Args.token_only args = false
                /\ jwt_token (world p) = token
                /\ sent (world p)
                   = register_request config (username_of args config) (pin_of args config)
                     :: (if gated (selected args) config then []
                         else [probe_request (selected args) config token])
                /\ ((exit_code p = 1
                     /\ trace (world p) = [Invoked name]
                     /\ exists before : list text,
                          stdout (world p) = before ++ [interrupted])
                    \/ exists (result : ProbeResult.t) (before : list text),
                         trace (world p) = [Invoked name; Produced name result]
                         /\ ProbeResult.provider result = name
                         /\ exit_code p = (if ProbeResult.success result then 0 else 1)
                         /\ stdout (world p)
                            = before ++ summary_lines (ProbeResult.success result))).
Proof.
  intros p name. subst p name. unfold script.
  destruct (load_config env) as [config | e] eqn:Hc.
  2:{ rewrite (main_config_error net args env e initial Hc).
      rewrite (load_config_raises env e Hc). left. repeat split; reflexivity. }
  destruct (truthy (username_of args config)) eqn:Hu.
  2:{ rewrite (main_missing_username net args env config initial Hc Hu).
      left. repeat split; reflexivity. }
  destruct (truthy (pin_of args config)) eqn:Hp.
  2:{ rewrite (main_missing_pin net args env config initial Hc Hu Hp).
      left. repeat split; reflexivity. }
  right. exists config.
  split; [reflexivity | split; [exact Hu | split; [exact Hp | ]]].
  rewrite (main_run net args env config initial Hc Hu Hp).
  rewrite main_guard_run, main_try_run.
  set (w0 := banner config (username_of args config) [choice_name (selected args)]
               (with_token PNone initial)).
  change 0%nat with (List.length (sent w0)).
  destruct (registered_token
              (net (List.length (sent w0))
                 (register_request config (username_of args config) (pin_of args config))))
    as [token | ] eqn:Ht.
  2:{ destruct (register_user_not_true net config _ _ _ Ht)
        as (w1 & Hsent & Htrace & _ & [-> | ->]); worlds;
        (split; [reflexivity | ]); left; rewrite Hsent, Htrace; auto. }
  destruct (register_user_true net config _ _ _ token Ht) as [_ ->].
  set (w1 := printing _ (with_token token _)).
  destruct (token_shown_frame args w1) as (Hsent1 & Hjwt1 & Hclosed1).
  pose proof (token_shown_trace args w1) as Htrace1.
  destruct (Args.token_only args) eqn:Honly.
  { worlds. split; [reflexivity | ]. left. rewrite Htrace1, Hsent1. auto. }
  rewrite run_health_checks_single.
  set (w2 := announced _ _).
  destruct (probe_frame net (selected args) config (Args.verbose args) w2)
    as (Hjwt3 & _ & Hclosed3 & Htrace3 & Hsent3).
  assert (Hjwt2 : jwt_token w2 = token)
    by (unfold w2, announced; worlds; rewrite Hjwt1; reflexivity).
  assert (Hsent2 : sent w2 = [register_request config (username_of args config)
                               (pin_of args config)])
    by (unfold w2, announced; worlds; rewrite Hsent1; reflexivity).
  assert (Htrace2 : trace w2 = [Invoked (choice_name (selected args))])
    by (unfold w2, announced; worlds; rewrite Htrace1; reflexivity).
  rewrite Hjwt2, Hsent2 in Hsent3. rewrite Hjwt2 in Hjwt3. rewrite Htrace2 in Htrace3.
  pose proof (probe_result_shape net (selected args) config (Args.verbose args) w2)
    as Hshape.
  destruct (probe_cases net (selected args) config (Args.verbose args) w2)
    as (w3' & _ & _ & [[result Hrun] | Hrun]); rewrite Hrun in *; cbn [fst snd] in *.
  - destruct (Hshape result eq_refl) as [Hname _].
    destruct (reported_frame (choice_name (selected args)) (Args.verbose args) result
                (logging (Produced (choice_name (selected args)) result) w3'))
      as (Hs & Hj & Hcl).
    cbn [exit_code world closing closed].
    split; [reflexivity | ]. right. exists token.
    split; [reflexivity | split; [reflexivity | ]].
    destruct (closing_summary [(choice_name (selected args), result)]
                (reported (choice_name (selected args)) (Args.verbose args) result
                   (logging (Produced (choice_name (selected args)) result) w3')))
      as (E1 & E2 & E3 & E4).
    rewrite E1, E2, E3, E4, Hs, Hj, reported_trace. cbn [logging sent jwt_token trace].
    split; [exact Hjwt3 | split; [exact Hsent3 | ]].
    right. exists result. eexists.
    split; [rewrite Htrace3; reflexivity | ].
    split; [exact Hname | split; [apply summary_code_single | ]].
    apply summary_single.
  - cbn [exit_code world closing closed jwt_token sent trace stdout printing].
    split; [reflexivity | ]. right. exists token.
    split; [reflexivity | split; [reflexivity | ]].
    split; [exact Hjwt3 | split; [exact Hsent3 | ]].
    left. split; [reflexivity | split; [exact Htrace3 | ]].
    eexists. reflexivity.
Qed.

Lemma registered_token_truthy (answer : outcome) (token : pyval) :
  registered_token answer = Some token -> truthy token = true.
Proof.
  unfold registered_token. destruct answer as [response | e]; [ | discriminate].
  destruct (_ =? 200); [ | discriminate].
  destruct (Response.json response) as [data | e]; [ | discriminate].
  destruct data; try discriminate.
  destruct (truthy (dict_get d "token")) eqn:Ht; [ | discriminate].
  intros [= <-]. exact Ht.
Qed.

Lemma probe_request_authorization (c : choice) (config : Config.t) (jwt : pyval) :
  dict_lookup "Authorization" (Request.headers (probe_request c config jwt))
  = Some [Lit "Bearer "; Fmt jwt].
Proof. destruct c; reflexivity. Qed.

(** X6: a run enters at most one probe, the one of the provider given with
    --provider, and the opensource one when the option is absent; the result
    it hands back bears that name.  No other probe is ever entered. *)
Theorem only_selected_provider_is_probed (net : network) (args : Args.t)
  (env : gmap string string) :
  let p := script net args env in
  let name := match Args.provider args with
              | Some c => choice_name c
              | None => "opensource"
              end in
  trace (world p) = []
  \/ trace (world p) = [Invoked name]
  \/ exists result : ProbeResult.t,
       trace (world p) = [Invoked name; Produced name result]
       /\ ProbeResult.provider result = name.
Proof.
  intros p name.
  assert (Hname : name = choice_name (selected args))
    by (unfold name, selected; destruct (Args.provider args); reflexivity).
  rewrite Hname. clear Hname name.
  destruct (script_shape net args env)
    as [(_ & Ht & _) | (config & _ & _ & _ & _ & [(Ht & _) | (token & _ & _ & _ & _ & H)])];
    fold p in Ht || fold p in H; auto.
  destruct H as [(_ & Ht & _) | (result & before & Ht & Hn & _)]; eauto.
Qed.

Lemma script_requests (net : network) (args : Args.t) (env : gmap string string)
  (config : Config.t) :
  load_config env = Ok config ->
  truthy (username_of args config) = true ->
  truthy (pin_of args config) = true ->
  let p := script net args env in
  let reg := register_request config (username_of args config) (pin_of args config) in
  match registered_token (net 0%nat reg) with
  | Some token =>
      if Args.token_only args then sent (world p) = [reg]
      else sent (world p)
           = reg :: (if gated (selected args) config then []
                     else [probe_request (selected args) config token])
           /\ jwt_token (world p) = token
  | None => sent (world p) = [reg]
  end.
Proof.
  intros Hc Hu Hp p reg. subst p reg. unfold script.
  rewrite (main_run net args env config initial Hc Hu Hp).
  rewrite main_guard_run, main_try_run.
  set (w0 := banner config (username_of args config) [choice_name (selected args)]
               (with_token PNone initial)).
  change 0%nat with (List.length (sent w0)).
  destruct (registered_token _) as [token | ] eqn:Ht.
  2:{ destruct (register_user_not_true net config _ _ _ Ht)
        as (w1 & Hsent & _ & _ & [-> | ->]); worlds; exact Hsent. }
  destruct (register_user_true net config _ _ _ token Ht) as [_ ->].
  set (w1 := printing _ (with_token token _)).
  destruct (token_shown_frame args w1) as (Hsent1 & Hjwt1 & _).
  destruct (Args.token_only args).
  { worlds. exact Hsent1. }
  rewrite run_health_checks_single.
  set (w2 := announced _ _).
  destruct (probe_frame net (selected args) config (Args.verbose args) w2)
    as (Hjwt3 & _ & _ & _ & Hsent3).
  assert (Hjwt2 : jwt_token w2 = token)
    by (unfold w2, announced; worlds; rewrite Hjwt1; reflexivity).
  assert (Hsent2 : sent w2 = [register_request config (username_of args config)
                               (pin_of args config)])
    by (unfold w2, announced; worlds; rewrite Hsent1; reflexivity).
  rewrite Hjwt2, Hsent2 in Hsent3. rewrite Hjwt2 in Hjwt3.
  destruct (probe net (selected args) config (Args.verbose args) w2)
    as [[result | [cls msg | ]] w3]; cbn [fst snd] in *.
  - destruct (closing_summary [(choice_name (selected args), result)]
                (reported (choice_name (selected args)) (Args.verbose args) result
                   (logging (Produced (choice_name (selected args)) result) w3)))
      as (E1 & E2 & _).
    destruct (reported_frame (choice_name (selected args)) (Args.verbose args) result
                (logging (Produced (choice_name (selected args)) result) w3))
      as (Hs & Hj & _).
    cbn [world]. rewrite E1, E2, Hs, Hj. cbn [logging sent jwt_token]. auto.
  - worlds. auto.
  - worlds. auto.
Qed.

(** X7: a run gives the client at most two requests and never repeats one.
    Nothing is sent when load_config raises or a credential is missing, and
    nothing by a run that ends without a client to close.  A run that ends
    with its client closed has sent the registration first; it has then sent
    the request of the selected probe, and nothing more, exactly when
    register_user returned True, --token-only is absent and the probe is not
    gated; otherwise the registration is all it sent.  The request of the
    probe carries, as its bearer, the token that the registration of this run
    has stored, and that token is not empty. *)
Theorem at_most_two_requests (net : network) (args : Args.t) (env : gmap string string) :
  let p := script net args env in
  ((exists e : pyexc, load_config env = Raise e) -> sent (world p) = [])
  /\ (forall config : Config.t,
        load_config env = Ok config ->
        truthy (username_of args config) = false
        \/ truthy (pin_of args config) = false ->
        sent (world p) = [])
  /\ (closed (world p) = false -> sent (world p) = [])
  /\ (closed (world p) = true ->
      exists config : Config.t,
        load_config env = Ok config
        /\ (((register_user net config (username_of args config) (pin_of args config)
                initial).1 = Ok true
             /\ Args.token_only args = false
             /\ gated (selected args) config = false) ->
            sent (world p)
            = [register_request config (username_of args config) (pin_of args config);
               probe_request (selected args) config (jwt_token (world p))]
            /\ truthy (jwt_token (world p)) = true
            /\ dict_lookup "Authorization"
                 (Request.headers
                    (probe_request (selected args) config (jwt_token (world p))))
               = Some [Lit "Bearer "; Fmt (jwt_token (world p))])
        /\ (~ ((register_user net config (username_of args config) (pin_of args config)
                  initial).1 = Ok true
               /\ Args.token_only args = false
               /\ gated (selected args) config = false) ->
            sent (world p)
            = [register_request config (username_of args config) (pin_of args config)])).
Proof.
  intros p. split; [ | split; [ | split]].
  - intros [e He]. subst p. unfold script.
    rewrite (main_config_error net args env e initial He).
    rewrite (load_config_raises env e He). reflexivity.
  - intros config Hc Hmiss. subst p. unfold script.
    destruct (truthy (username_of args config)) eqn:Hu.
    + destruct Hmiss as [Hmiss | Hp]; [discriminate | ].
      rewrite (main_missing_pin net args env config initial Hc Hu Hp). reflexivity.
    + rewrite (main_missing_username net args env config initial Hc Hu). reflexivity.
  - intros Hcl.
    destruct (script_shape net args env)
      as [(_ & _ & Hs & _) | (config & _ & _ & _ & Hcl' & _)];
      [exact Hs | fold p in Hcl'; rewrite Hcl' in Hcl; discriminate].
  - intros Hcl.
    destruct (script_shape net args env)
      as [(_ & _ & _ & Hcl') | (config & Hc & Hu & Hp & _)];
      [fold p in Hcl'; rewrite Hcl' in Hcl; discriminate | ].
    exists config. split; [exact Hc | ].
    pose proof (script_requests net args env config Hc Hu Hp) as Hreq.
    cbv zeta in Hreq. fold p in Hreq.
    pose proof (register_user_result net config (username_of args config)
                  (pin_of args config) initial) as Hinit.
    change (List.length (sent initial)) with 0%nat in Hinit.
    destruct (registered_token _) as [token | ] eqn:Ht.
    + destruct Hinit as [Hauth _].
      destruct (Args.token_only args) eqn:Honly.
      * split; [intros (_ & H & _); discriminate | intros _; exact Hreq].
      * destruct Hreq as [Hsent Hjwt].
        destruct (gated (selected args) config) eqn:Hg.
        -- split; [intros (_ & _ & H); discriminate | intros _; exact Hsent].
        -- split; [ | intros H; contradiction H; auto].
           intros _. rewrite Hjwt. split; [exact Hsent | split].
           ++ exact (registered_token_truthy _ _ Ht).
           ++ apply probe_request_authorization.
    + split; [intros (H & _); contradiction | intros _; exact Hreq].
Qed.

(** X8: when the probe of a run has handed back a result, the process prints
    the summary with its last three lines "Total Tests: 1", "Passed: 1" and
    "Failed: 0" in green for a success, "Passed: 0" and "Failed: 1" in red
    for a failure; its exit status is 0 for a success and 1 for a failure,
    and the client is closed. *)
Theorem summary_reports_the_probe (net : network) (args : Args.t)
  (env : gmap string string) (name : string) (result : ProbeResult.t) :
  let p := script net args env in
  trace (world p) = [Invoked name; Produced name result] ->
  exit_code p = (if ProbeResult.success result then 0 else 1)
  /\ closed (world p) = true
  /\ exists before : list text,
       stdout (world p) = before ++ summary_lines (ProbeResult.success result).
Proof.
  intros p Htrace.
  destruct (script_shape net args env)
    as [(_ & Ht & _)
       | (config & _ & _ & _ & Hcl & [(Ht & _) | (token & _ & _ & _ & _ & H)])];
    fold p in Ht || fold p in H; try fold p in Hcl;
    try (rewrite Ht in Htrace; discriminate).
  destruct H as [(_ & Ht & _) | (result' & before & Ht & _ & Hcode & Hout)];
    rewrite Ht in Htrace; [discriminate | ].
  assert (Hr : result' = result) by congruence. subst result'.
  split; [exact Hcode | split; [exact Hcl | exists before; exact Hout]].
Qed.

Lemma summary_reports_the_probe_witness :
  let p := script healthy alice ∅ in
  exit_code p = 0
  /\ closed (world p) = true
  /\ exists before : list text, stdout (world p) = before ++ summary_lines true.
Proof.
  apply (summary_reports_the_probe healthy alice ∅ "opensource"
           (ProbeResult.mk "opensource" 200 true (PFloat 0.25%float) PNone
              (PDict [("token", PStr "abc")]) None)).
  reflexivity.
Defined.

(** X9: when KeyboardInterrupt cuts the probe of a run short, so that the
    probe was entered and handed back nothing, the process says so on its
    last line, ends with status 1 and has closed the client. *)
Theorem interrupted_probe_exit (net : network) (args : Args.t) (env : gmap string string)
  (name : string) :
  let p := script net args env in
  trace (world p) = [Invoked name] ->
  exit_code p = 1
  /\ closed (world p) = true
  /\ last (stdout (world p)) = Some interrupted.
Proof.
  intros p Htrace.
  destruct (script_shape net args env)
    as [(_ & Ht & _)
       | (config & _ & _ & _ & Hcl & [(Ht & _) | (token & _ & _ & _ & _ & H)])];
    fold p in Ht || fold p in H; try fold p in Hcl;
    try (rewrite Ht in Htrace; discriminate).
  destruct H as [(Hcode & _ & before & Hout) | (result' & before & Ht & _)];
    [ | rewrite Ht in Htrace; discriminate].
  rewrite Hout, last_snoc. auto.
Qed.

Lemma interrupted_probe_exit_witness :
  let p := script interrupting alice ∅ in
  exit_code p = 1
  /\ closed (world p) = true
  /\ last (stdout (world p)) = Some interrupted.
Proof.
  apply (interrupted_probe_exit interrupting alice ∅ "opensource"). reflexivity.
Defined.

(** ** Configuration and credentials *)

(** X10: load_config reads seven variables and nothing else: setting any
    other variable does not change what it returns.  Without PROXY_TIMEOUT the
    timeout is 30 and the call succeeds; without PROXY_BASE_URL the address is
    the built-in one; the call can only raise when PROXY_TIMEOUT is set, and
    what it raises is then a ValueError. *)
Theorem load_config_reads_seven_variables (env : gmap string string) :
  (forall k v : string,
      ~ In k config_variables -> load_config (<[k := v]> env) = load_config env)
  /\ (env !! "PROXY_TIMEOUT" = None ->
      exists config : Config.t,
        load_config env = Ok config /\ Config.PROXY_TIMEOUT config = 30)
  /\ (forall config : Config.t,
        load_config env = Ok config ->
        env !! "PROXY_BASE_URL" = None ->
        Config.PROXY_BASE_URL config = "http://aitools.cs.vt.edu:7860")
  /\ (forall e : pyexc,
        load_config env = Raise e ->
        (exists s : string, env !! "PROXY_TIMEOUT" = Some s)
        /\ exists msg : string, e = PyException "ValueError" msg).
Proof.
  split; [ | split; [ | split]].
  - intros k v Hk. unfold load_config, config_variables in *. cbn [In] in Hk.
    rewrite !lookup_insert_ne by (intros ->; tauto). reflexivity.
  - intros Hnone. unfold load_config. rewrite Hnone. cbn. eauto.
  - intros config Hload Hnone. unfold load_config in Hload.
    destruct (int_of_env _); [ | discriminate]. injection Hload as <-.
    cbn. rewrite Hnone. reflexivity.
  - intros e He. split.
    + unfold load_config in He.
      destruct (env !! "PROXY_TIMEOUT") as [s | ]; [eauto | discriminate].
    + rewrite (load_config_raises env e He). eauto.
Qed.

(** X11: a credential given on the command line, when it is not empty, is
    the one used, whatever the environment holds; when the command line gives
    none or an empty one, the value of DEFAULT_USERNAME (DEFAULT_PIN) is used.
    When both credentials are there, the first request of the run is the
    registration with exactly these two values. *)
Theorem credentials_resolution (net : network) (args : Args.t) (env : gmap string string)
  (config : Config.t) :
  load_config env = Ok config ->
  (forall u : string,
      Args.username args = Some u -> u <> EmptyString ->
      username_of args config = PStr u)
  /\ (missing (Args.username args) ->
      username_of args config = of_opt (env !! "DEFAULT_USERNAME"))
  /\ (forall p : string,
        Args.pin args = Some p -> p <> EmptyString -> pin_of args config = PStr p)
  /\ (missing (Args.pin args) -> pin_of args config = of_opt (env !! "DEFAULT_PIN"))
  /\ (truthy (username_of args config) = true ->
      truthy (pin_of args config) = true ->
      exists rest : list Request.t,
        sent (world (script net args env))
        = register_request config (username_of args config) (pin_of args config) :: rest).
Proof.
  intros Hc. destruct (load_config_defaults env config Hc) as [Hdu Hdp].
  unfold username_of, pin_of, py_or, missing. rewrite Hdu, Hdp.
  split; [ | split; [ | split; [ | split]]].
  - intros u -> Hu. cbn. apply String.eqb_neq in Hu. rewrite Hu. reflexivity.
  - intros ->. reflexivity.
  - intros p -> Hp. cbn. apply String.eqb_neq in Hp. rewrite Hp. reflexivity.
  - intros ->. reflexivity.
  - intros Hu Hp.
    destruct (script_shape net args env)
      as [(_ & _ & Hs & Hcl)
         | (config' & Hc' & _ & _ & _ & [(_ & Hs & _) | (token & _ & _ & _ & Hs & _)])].
    + unfold script in Hcl.
      rewrite (main_run net args env config initial Hc) in Hcl
        by (unfold username_of, py_or; rewrite ?Hdu; assumption
            || (unfold pin_of, py_or; rewrite ?Hdp; assumption)).
      rewrite main_guard_run in Hcl.
      destruct (main_try _ _ _ _ _ _ _) as [[code | [cls msg | ]] w']; discriminate.
    + rewrite Hc in Hc'. injection Hc' as <-.
      unfold username_of, pin_of, py_or in Hs. rewrite Hdu, Hdp in Hs. eauto.
    + rewrite Hc in Hc'. injection Hc' as <-.
      unfold username_of, pin_of, py_or in Hs. rewrite Hdu, Hdp in Hs. eauto.
Qed.

Lemma credentials_resolution_witness :
  (forall u : string,
      Args.username alice = Some u -> u <> EmptyString ->
      username_of alice config_bob = PStr u)
  /\ (missing (Args.username alice) ->
      username_of alice config_bob = of_opt (bob_in_env !! "DEFAULT_USERNAME"))
  /\ (forall p : string,
        Args.pin alice = Some p -> p <> EmptyString ->
        pin_of alice config_bob = PStr p)
  /\ (missing (Args.pin alice) ->
      pin_of alice config_bob = of_opt (bob_in_env !! "DEFAULT_PIN"))
  /\ (truthy (username_of alice config_bob) = true ->
      truthy (pin_of alice config_bob) = true ->
      exists rest : list Request.t,
        sent (world (script healthy alice bob_in_env))
        = register_request config_bob (username_of alice config_bob)
            (pin_of alice config_bob) :: rest).
Proof.
  apply (credentials_resolution healthy alice bob_in_env config_bob).
  vm_compute. reflexivity.
Defined.

(** X12: the [finally] clause of [main] closes the client however the body
    of the [try] statement ends, by returning, by KeyboardInterrupt or by an
    exception; and a run ends with a closed client only if the configuration
    loaded and both credentials were there, so a run that stopped on the
    configuration or on a missing credential has closed nothing. *)
Theorem client_closed_by_finally (net : network) (args : Args.t)
  (env : gmap string string) :
  (forall (body : M Z) (w : World),
      closed (main_guard body w).2 = true
      /\ exists code : Z, (main_guard body w).1 = Ok code)
  /\ (closed (world (script net args env)) = true ->
      exists config : Config.t,
        load_config env = Ok config
        /\ truthy (username_of args config) = true
        /\ truthy (pin_of args config) = true).
Proof.
  split.
  - intros body w. rewrite main_guard_run.
    destruct (body w) as [[code | [cls msg | ]] w']; cbn [fst snd]; eauto.
  - intros Hcl.
    destruct (script_shape net args env)
      as [(_ & _ & _ & Hcl') | (config & Hc & Hu & Hp & _)].
    + rewrite Hcl' in Hcl. discriminate.
    + exists config. auto.
Qed.

(** ** Printing *)

Lemma str_app_cons (c : ascii) (a b : string) :
  String c a +:+ b = String c (a +:+ b).
Proof. reflexivity. Qed.

Lemma str_length_app (a b : string) :
  String.length (a +:+ b) = (String.length a + String.length b)%nat.
Proof.
  induction a as [ | c a IH]; [reflexivity | ].
  rewrite str_app_cons. cbn [String.length]. rewrite IH. reflexivity.
Qed.

Lemma str_app_nil_r (a : string) : a +:+ EmptyString = a.
Proof.
  induction a as [ | c a IH]; [reflexivity | ].
  rewrite str_app_cons, IH. reflexivity.
Qed.

(** X13: print_header prints three lines, a bar of sixty "=" above and below
    the title.  The title is never cut: it stands between two runs of blanks
    that bring it to sixty characters when it is shorter, the left run being
    as long as the right one or one blank shorter. *)
Theorem header_title_is_centered (t : string) (w : World) :
  exists left right : nat,
    print_header t w =
    (Ok tt,
     printing (colored Colors.CYAN [Lit (repeat_str "=" 60); Lit Colors.END])
       (printing (colored (Colors.CYAN +:+ Colors.BOLD)
                    [Lit (repeat_str " " left +:+ t +:+ repeat_str " " right)])
          (printing
             (colored Colors.CYAN [Lit NL; Lit Colors.BOLD; Lit (repeat_str "=" 60)]) w)))
    /\ (left + String.length t + right = Nat.max 60 (String.length t))%nat
    /\ (left <= right <= left + 1)%nat.
Proof.
  assert (Hrun : print_header t w = (Ok tt, header t w)) by reflexivity.
  rewrite Hrun. unfold header, center.
  destruct (60 <=? String.length t)%nat eqn:Hlen.
  - exists 0%nat, 0%nat. change (repeat_str " " 0) with EmptyString.
    rewrite str_app_nil_r. change (EmptyString +:+ t) with t.
    apply Nat.leb_le in Hlen. split; [reflexivity | lia].
  - apply Nat.leb_gt in Hlen. cbv zeta.
    change (Nat.odd 60) with false. rewrite andb_false_r, Nat.add_0_r.
    exists ((60 - String.length t) / 2)%nat,
      (60 - String.length t - (60 - String.length t) / 2)%nat.
    split; [reflexivity | ].
    pose proof (Nat.div_mod_eq (60 - String.length t) 2) as Hdiv.
    pose proof (Nat.mod_upper_bound (60 - String.length t) 2) as Hmod.
    lia.
Qed.

(** X14: the line that print_status writes is green exactly when the status
    is "PASS" and red otherwise; the provider is padded with blanks to twelve
    characters and the bracketed status to eight, neither is ever cut, and
    the details follow unchanged. *)
Theorem status_line_is_padded (provider status : string) (details : text) (w : World) :
  exists pad1 pad2 : nat,
    print_status provider status details w =
    (Ok tt,
     printing
       (colored (if String.eqb status "PASS" then Colors.GREEN else Colors.RED)
          ([Lit (provider +:+ repeat_str " " pad1); Lit " ";
            Lit (("[" +:+ status +:+ "]") +:+ repeat_str " " pad2); Lit " "] ++ details))
       w)
    /\ (String.length provider + pad1 = Nat.max 12 (String.length provider))%nat
    /\ (String.length status + 2 + pad2 = Nat.max 8 (String.length status + 2))%nat.
Proof.
  exists (12 - String.length provider)%nat,
    (8 - String.length ("[" +:+ status +:+ "]"))%nat.
  split; [reflexivity | split; [lia | ]].
  assert (Hlen : String.length ("[" +:+ status +:+ "]") = (String.length status + 2)%nat).
  { rewrite !str_length_app.
    change (1 + (String.length status + 1) = String.length status + 2)%nat. lia. }
  rewrite Hlen. lia.
Qed.

(** ** What is printed about the token *)

Lemma plain_colored (color s : string) (rest : text) :
  plain (colored color (Lit s :: rest)).
Proof. intros v H. unfold token_line, colored in H. cbn [app] in H. congruence. Qed.

Lemma plain_dumps (v : pyval) : plain [Dumps v].
Proof. intros v' H. unfold token_line, colored in H. cbn [app] in H. congruence. Qed.

Lemma extends_same (w w' : World) : stdout w' = stdout w -> plainly_extends w w'.
Proof. intros H. exists []. rewrite app_nil_r. auto. Qed.

Lemma extends_trans (w1 w2 w3 : World) :
  plainly_extends w1 w2 -> plainly_extends w2 w3 -> plainly_extends w1 w3.
Proof.
  intros (l1 & H1 & F1) (l2 & H2 & F2). exists (l1 ++ l2).
  rewrite H2, H1, app_assoc. split; [reflexivity | ]. apply Forall_app. auto.
Qed.

Lemma extends_printing (w w' : World) (line : text) :
  plain line -> plainly_extends w w' -> plainly_extends w (printing line w').
Proof.
  intros Hl Hw. apply (extends_trans w w'); [exact Hw | ].
  exists [line]. split; [reflexivity | auto].
Qed.

Create HintDb transcript.

#[local] Hint Resolve plain_colored plain_dumps : transcript.
#[local] Hint Extern 1 (plainly_extends _ (printing _ _)) =>
  apply extends_printing : transcript.

Lemma extends_refl (w : World) : plainly_extends w w.
Proof. apply extends_same. reflexivity. Qed.

#[local] Hint Resolve extends_refl : transcript.

Lemma extends_header (t : string) (w w' : World) :
  plainly_extends w w' -> plainly_extends w (header t w').
Proof. intros H. unfold header. auto with transcript. Qed.

Lemma extends_register_user (net : network) (config : Config.t) (username pin : pyval)
  (w : World) :
  plainly_extends w (register_user net config username pin w).2.
Proof.
  rewrite register_user_run. cbv zeta.
  assert (Hsent : plainly_extends w (sending (register_request config username pin) w))
    by (apply extends_same; reflexivity).
  assert (Htok : forall v : pyval,
             plainly_extends w
               (with_token v (sending (register_request config username pin) w)))
    by (intros v; apply extends_same; reflexivity).
  destruct (net _ _) as [response | [cls msg | ]]; cbn [snd]; auto with transcript.
  destruct (Response.status_code response =? 200); cbn [snd]; auto with transcript.
  destruct (Response.json response) as [data | [cls msg | ]]; cbn [snd];
    auto with transcript.
  destruct data; cbn [snd]; auto with transcript.
  destruct (truthy (dict_get d "token")); cbn [snd]; auto with transcript.
Qed.

Lemma extends_reported (provider : string) (verbose : bool) (result : ProbeResult.t)
  (w w' : World) :
  plainly_extends w w' -> plainly_extends w (reported provider verbose result w').
Proof.
  intros H. unfold reported. cbn [app].
  destruct (verbose && _); auto 6 with transcript.
Qed.

Lemma extends_summary (results : list (string * ProbeResult.t)) (w w' : World) :
  plainly_extends w w' -> plainly_extends w (summary results w').
Proof.
  intros H. unfold summary, failed_line. auto 8 using extends_header with transcript.
Qed.

(** After the registration a run prints no line that shows a token, except
    where [main] shows it on request. *)
Lemma script_transcript (net : network) (args : Args.t) (env : gmap string string)
  (config : Config.t) :
  load_config env = Ok config ->
  truthy (username_of args config) = true ->
  truthy (pin_of args config) = true ->
  let w0 := banner config (username_of args config) [choice_name (selected args)]
              (with_token PNone initial) in
  match register_user net config (username_of args config) (pin_of args config) w0 with
  | (Ok true, w1) => plainly_extends (token_shown args w1) (world (script net args env))
  | (_, w1) => plainly_extends w1 (world (script net args env))
  end.
Proof.
  intros Hc Hu Hp w0. unfold script.
  rewrite (main_run net args env config initial Hc Hu Hp).
  rewrite main_guard_run, main_try_run. fold w0.
  destruct (register_user net config _ _ w0) as [[[ | ] | [cls msg | ]] w1];
    cbn [world]; try (apply extends_same; reflexivity || fail);
    try (unfold closing, registration_failed, interrupted, unexpected_error;
         eapply extends_trans; [ | apply extends_same; reflexivity];
         apply extends_printing; auto with transcript; fail).
  destruct (Args.token_only args).
  { cbn [world]. eapply extends_trans; [ | apply extends_same; reflexivity].
    apply extends_printing; [apply plain_colored | apply extends_refl]. }
  rewrite run_health_checks_single.
  set (w2 := announced _ _).
  assert (H2 : plainly_extends (token_shown args w1) w2).
  { unfold w2, announced. eapply extends_trans; [ | apply extends_same; reflexivity].
    apply extends_printing; [apply plain_colored | ].
    apply extends_header, extends_refl. }
  pose proof (probe_frame net (selected args) config (Args.verbose args) w2)
    as (_ & Hout & _).
  destruct (probe net (selected args) config (Args.verbose args) w2)
    as [[result | [cls msg | ]] w3]; cbn [snd] in Hout; cbn [world];
    (eapply extends_trans; [ | apply extends_same; reflexivity]).
  - apply extends_summary, extends_reported.
    eapply extends_trans; [exact H2 | ].
    apply extends_same. cbn [logging stdout]. exact Hout.
  - apply extends_printing; [apply plain_colored | ].
    eapply extends_trans; [exact H2 | apply extends_same; exact Hout].
  - apply extends_printing; [apply plain_colored | ].
    eapply extends_trans; [exact H2 | apply extends_same; exact Hout].
Qed.

(** X15: without --show-token and without --token-only the process never
    prints the line that shows the token, however the run goes. *)
Theorem token_is_shown_only_on_request (net : network) (args : Args.t)
  (env : gmap string string) :
  Args.show_token args = false ->
  Args.token_only args = false ->
  Forall (fun line => forall v : pyval, line <> token_line v)
    (stdout (world (script net args env))).
Proof.
  intros Hshow Honly. change (Forall plain (stdout (world (script net args env)))).
  destruct (load_config env) as [config | e] eqn:Hc.
  2:{ unfold script. rewrite (main_config_error net args env e initial Hc).
      rewrite (load_config_raises env e Hc). constructor. }
  destruct (truthy (username_of args config)) eqn:Hu.
  2:{ unfold script. rewrite (main_missing_username net args env config initial Hc Hu).
      repeat constructor. apply plain_colored. }
  destruct (truthy (pin_of args config)) eqn:Hp.
  2:{ unfold script. rewrite (main_missing_pin net args env config initial Hc Hu Hp).
      repeat constructor. apply plain_colored. }
  pose proof (script_transcript net args env config Hc Hu Hp) as Hrun. cbv zeta in Hrun.
  set (w0 := banner config (username_of args config) [choice_name (selected args)]
               (with_token PNone initial)) in Hrun.
  assert (H0 : plainly_extends initial w0).
  { unfold w0, banner.
    do 4 (apply extends_printing; [apply plain_colored | ]).
    apply extends_header, extends_same. reflexivity. }
  pose proof (extends_register_user net config (username_of args config)
                (pin_of args config) w0) as H1.
  assert (Hall : plainly_extends initial (world (script net args env))).
  { destruct (register_user net config _ _ w0) as [[[ | ] | e] w1]; cbn [snd] in H1;
      try (unfold token_shown in Hrun; rewrite Hshow, Honly in Hrun; cbn [orb] in Hrun);
      exact (extends_trans _ _ _ (extends_trans _ _ _ H0 H1) Hrun). }
  destruct Hall as (lines & -> & Hlines). exact Hlines.
Qed.

Lemma token_is_shown_only_on_request_witness :
  Forall (fun line => forall v : pyval, line <> token_line v)
    (stdout (world (script healthy alice ∅))).
Proof.
  apply (token_is_shown_only_on_request healthy alice ∅); reflexivity.
Defined.

(** X16: with --show-token, when register_user returns True, the process
    prints the token that the registration stored, on a line of its own after
    the line "JWT Token:", whether or not the health checks follow. *)
Theorem show_token_prints_the_token (net : network) (args : Args.t)
  (env : gmap string string) (config : Config.t) :
  load_config env = Ok config ->
  truthy (username_of args config) = true ->
  truthy (pin_of args config) = true ->
  Args.show_token args = true ->
  (register_user net config (username_of args config) (pin_of args config) initial).1
  = Ok true ->
  exists (before after : list text),
    stdout (world (script net args env))
    = before
      ++ [colored Colors.YELLOW [Lit NL; Lit "JWT Token:"];
          token_line (jwt_token (register_user net config (username_of args config)
                                   (pin_of args config) initial).2)]
      ++ after.
Proof.
  intros Hc Hu Hp Hshow Hauth.
  pose proof (script_transcript net args env config Hc Hu Hp) as Hrun. cbv zeta in Hrun.
  pose proof (register_user_result net config (username_of args config)
                (pin_of args config) initial) as Hinit.
  destruct (registered_token _) as [token | ] eqn:Ht in Hinit;
    [destruct Hinit as [_ Htoken] | contradiction].
  change (sent initial) with
    (sent (banner config (username_of args config) [choice_name (selected args)]
             (with_token PNone initial))) in Ht.
  destruct (register_user_true net config _ _ _ token Ht) as [_ Hreg].
  rewrite Hreg in Hrun. rewrite Htoken.
  destruct Hrun as (lines & Hout & _). rewrite Hout.
  unfold token_shown. rewrite Hshow. cbn [orb jwt_token stdout printing with_token].
  match goal with
  | |- exists before after, ((?x ++ _) ++ _) ++ _ = _ => exists x, lines
  end.
  rewrite <- !app_assoc. reflexivity.
Qed.

Lemma show_token_prints_the_token_witness :
  exists (before after : list text),
    stdout (world (script healthy alice_show_token ∅))
    = before
      ++ [colored Colors.YELLOW [Lit NL; Lit "JWT Token:"];
          token_line (jwt_token (register_user healthy config_default
                                   (username_of alice_show_token config_default)
                                   (pin_of alice_show_token config_default) initial).2)]
      ++ after.
Proof.
  apply (show_token_prints_the_token healthy alice_show_token ∅ config_default);
    reflexivity.
Defined.

(** ** More on the answers and on the mapping of results *)

(** X17: when the request of a probe is answered with status 200, the result
    is a success that carries the decoded body as its response data and the
    elapsed time of the response, provided the body decodes; a 200 answer
    whose body does not decode is handed back as a failure with status 0,
    response time 0 and the message of the decoder as its error. *)
Theorem status_200_result (net : network) (c : choice) (config : Config.t) (verbose : bool)
  (w : World) (response : Response.t) :
  gated c config = false ->
  net (List.length (sent w)) (probe_request c config (jwt_token w)) = Responds response ->
  Response.status_code response = 200 ->
  probe net c config verbose w =
  match Response.json response with
  | Ok data =>
      (Ok (ProbeResult.mk (choice_name c) 200 true (PFloat (Response.elapsed response))
             PNone data (if verbose then Some data else None)),
       sending (probe_request c config (jwt_token w)) w)
  | Raise (PyException _ msg) =>
      (Ok (ProbeResult.mk (choice_name c) 0 false (PInt 0) (PStr msg) PNone None),
       sending (probe_request c config (jwt_token w)) w)
  | Raise KeyboardInterrupt =>
      (Raise KeyboardInterrupt, sending (probe_request c config (jwt_token w)) w)
  end.
Proof.
  intros Hg Hnet Hs. rewrite probe_request_sent by assumption. rewrite Hnet.
  apply Z.eqb_eq in Hs. rewrite Hs. reflexivity.
Qed.

Lemma status_200_result_witness :
  probe healthy opensource config_default true initial =
  (Ok (ProbeResult.mk "opensource" 200 true (PFloat 0.25%float) PNone
         (PDict [("token", PStr "abc")]) (Some (PDict [("token", PStr "abc")]))),
   sending (probe_request opensource config_default PNone) initial).
Proof.
  apply (status_200_result healthy opensource config_default true initial
           (Response.mk 200
              ("{" +:+ DQ +:+ "token" +:+ DQ +:+ ": " +:+ DQ +:+ "abc" +:+ DQ +:+ "}")
              (Ok (PDict [("token", PStr "abc")])) 0.25%float));
    reflexivity.
Defined.

(** X18: a 200 answer to the registration whose body is not a JSON object is
    refused: when the body decodes to something else (a list, a string, a
    number, null) register_user prints "Registration error: '<type>' object
    has no attribute 'get'" and returns False, and when it does not decode it
    prints the message of the decoder and returns False; in both cases the
    stored token is left as it was. *)
Theorem register_user_refuses_other_bodies (net : network) (config : Config.t)
  (username pin : pyval) (w : World) (response : Response.t) :
  net (List.length (sent w)) (register_request config username pin) = Responds response ->
  Response.status_code response = 200 ->
  match Response.json response with
  | Ok (PDict _) => True
  | Ok data =>
      register_user net config username pin w =
      (Ok false,
       printing (colored Colors.RED
                   [Lit "✗ Registration error: ";
                    Lit ("'" +:+ type_name data +:+ "' object has no attribute 'get'")])
         (sending (register_request config username pin) w))
  | Raise (PyException _ msg) =>
      register_user net config username pin w =
      (Ok false,
       printing (colored Colors.RED [Lit "✗ Registration error: "; Lit msg])
         (sending (register_request config username pin) w))
  | Raise KeyboardInterrupt =>
      register_user net config username pin w =
      (Raise KeyboardInterrupt, sending (register_request config username pin) w)
  end.
Proof.
  intros Hnet Hs. rewrite register_user_run. cbv zeta. rewrite Hnet.
  apply Z.eqb_eq in Hs. rewrite Hs.
  destruct (Response.json response) as [data | [cls msg | ]]; try reflexivity.
  destruct data; first [reflexivity | exact I].
Qed.

Lemma register_user_refuses_other_bodies_witness :
  register_user (fun _ _ => Responds (Response.mk 200 "[]" (Ok (PList [])) 0.125%float))
    config_default (PStr "alice") (PStr "1234") initial =
  (Ok false,
   printing (colored Colors.RED
               [Lit "✗ Registration error: ";
                Lit "'list' object has no attribute 'get'"])
     (sending (register_request config_default (PStr "alice") (PStr "1234")) initial)).
Proof.
  apply (register_user_refuses_other_bodies
           (fun _ _ => Responds (Response.mk 200 "[]" (Ok (PList [])) 0.125%float))
           config_default (PStr "alice") (PStr "1234") initial
           (Response.mk 200 "[]" (Ok (PList [])) 0.125%float));
    reflexivity.
Defined.

Lemma dict_lookup_none {A : Type} (k : string) (d : list (string * A)) :
  ~ In k (map fst d) -> dict_lookup k d = None.
Proof.
  induction d as [ | [k' v] d IH]; cbn; [reflexivity | ].
  intros Hin. destruct (String.eqb_spec k' k) as [-> | Hne]; [tauto | ].
  apply IH. tauto.
Qed.

Lemma dict_set_fresh {A : Type} (k : string) (v : A) (d : list (string * A)) :
  dict_lookup k d = None -> dict_set k v d = d ++ [(k, v)].
Proof.
  induction d as [ | [k' v'] d IH]; cbn; [reflexivity | ].
  destruct (String.eqb k' k); [discriminate | ].
  intros H. rewrite (IH H). reflexivity.
Qed.

Lemma choice_name_inj (c1 c2 : choice) : choice_name c1 = choice_name c2 -> c1 = c2.
Proof. destruct c1, c2; cbn; intros H; try reflexivity; discriminate. Qed.

Lemma loop_keys (net : network) (config : Config.t) (verbose : bool) (cs : list choice) :
  forall (acc : list (string * ProbeResult.t)) (w : World),
    List.NoDup (map fst acc ++ map choice_name cs) ->
    match run_health_checks_loop net config (map choice_name cs) verbose acc w with
    | (Ok results, _) => map fst results = map fst acc ++ map choice_name cs
    | (Raise _, _) => True
    end.
Proof.
  induction cs as [ | c cs IH]; intros acc w Hnd.
  - cbn. rewrite app_nil_r. reflexivity.
  - cbn [map] in *. rewrite loop_known.
    destruct (probe net c config verbose _) as [[result | e] w1]; [ | exact I].
    assert (Hfresh : dict_lookup (choice_name c) acc = None).
    { apply dict_lookup_none. apply List.NoDup_remove_2 in Hnd.
      intros Hin. apply Hnd. apply in_or_app. left. exact Hin. }
    rewrite (dict_set_fresh _ result acc Hfresh).
    specialize (IH (acc ++ [(choice_name c, result)])
                  (reported (choice_name c) verbose result
                     (logging (Produced (choice_name c) result) w1))).
    rewrite map_app in IH. cbn [map fst] in IH. rewrite <- app_assoc in IH.
    cbn [app] in IH. exact (IH Hnd).
Qed.

(** X19: for a list of distinct providers the mapping that run_health_checks
    returns has exactly one entry per provider, in the order of the list; so
    the total that [main] counts is the number of providers tested. *)
Theorem results_follow_the_providers (net : network) (config : Config.t)
  (cs : list choice) (verbose : bool) (w : World) :
  List.NoDup cs ->
  match run_health_checks net config (map choice_name cs) verbose w with
  | (Ok results, _) =>
      map fst results = map choice_name cs /\ List.length results = List.length cs
  | (Raise _, _) => True
  end.
Proof.
  intros Hnd. unfold run_health_checks.
  pose proof (loop_keys net config verbose cs [] w) as H. cbn [map app] in H.
  destruct (run_health_checks_loop net config (map choice_name cs) verbose [] w)
    as [[results | e] w']; [ | exact I].
  assert (Hkeys : map fst results = map choice_name cs).
  { apply H. apply Finite.Injective_map_NoDup; [ | exact Hnd].
    intros c1 c2. apply choice_name_inj. }
  split; [exact Hkeys | ].
  rewrite <- (length_map fst results), Hkeys. apply length_map.
Qed.

Lemma results_follow_the_providers_witness :
  match run_health_checks healthy config_default
          (map choice_name [opensource; openai; anthropic]) false initial with
  | (Ok results, _) =>
      map fst results = map choice_name [opensource; openai; anthropic]
      /\ List.length results = List.length [opensource; openai; anthropic]
  | (Raise _, _) => True
  end.
Proof.
  apply (results_follow_the_providers healthy config_default
           [opensource; openai; anthropic] false initial).
  repeat constructor; cbn; intuition discriminate.
Defined.
